(** * Order comparison: a shallow embedding of [order_compare.py] and
      [parse_orders.py], and the properties of the comparator and of the
      table extractor.

    Python values are embedded as the inductive [value]; a [float] is a
    binary64 number (Rocq's primitive floats), a [str] is a [string] whose
    characters stand for the code points below 256, a [dict] with string keys
    is a [gmap string value] when it is only read, and an insertion-ordered
    association list ([odict]) when the program iterates over it.  A Python
    function that can raise returns a [result]. *)

From Stdlib Require Import ZArith Floats String Ascii List Bool Lia.
From stdpp Require Import gmap strings list.

Set Warnings "-register-all,-inexact-float".
#[local] Open Scope string_scope.
#[local] Open Scope Z_scope.

(** ** Exceptions *)

Inductive exn :=
| AttributeError
| TypeError
| OverflowError
| ValueError
| IndexError
| CalledProcessError
| UnicodeDecodeError.

Inductive result (A : Type) :=
| Ok (a : A)
| Raise (e : exn).
Arguments Ok {A} a.
Arguments Raise {A} e.

#[global] Instance result_ret : MRet result := fun A a => Ok a.
#[global] Instance result_bind : MBind result := fun A B k m =>
  match m with
  | Ok a => k a
  | Raise e => Raise e
  end.

#[global] Instance result_fmap : FMap result := fun A B f m =>
  match m with
  | Ok a => Ok (f a)
  | Raise e => Raise e
  end.

(** [try: ... except ValueError: h] *)
Definition except_ValueError {A} (m : result A) (h : A) : result A :=
  match m with
  | Raise ValueError => Ok h
  | _ => m
  end.

(** ** Values *)

Inductive value :=
| VNone
| VBool (b : bool)
| VInt (z : Z)
| VFloat (f : float)
| VStr (s : string)
| VList (l : list value)
| VTuple (l : list value)
| VDict (d : gmap string value).

(** Truth value of an object, as [or] and [if] test it. *)
Definition truthy (v : value) : bool :=
  match v with
  | VNone => false
  | VBool b => b
  | VInt z => negb (z =? 0)
  | VFloat f => negb (PrimFloat.eqb f 0%float)
  | VStr s => negb (String.eqb s "")
  | VList l | VTuple l => match l with [] => false | _ => true end
  | VDict d => negb (Nat.eqb (size d) 0)
  end.

(** [a or b] *)
Definition py_or (a b : value) : value := if truthy a then a else b.

(** [d.get(k)] on a dict; any other object has no attribute [get]. *)
Definition dict_get (k : string) (d : gmap string value) : value :=
  default VNone (d !! k).

Definition py_get (v : value) (k : string) : result value :=
  match v with
  | VDict d => Ok (dict_get k d)
  | _ => Raise AttributeError
  end.

Definition is_none (v : value) : bool :=
  match v with VNone => true | _ => false end.

(** [s.strip()] is defined on strings only. *)
Definition py_strip (strip : string → string) (v : value) : result string :=
  match v with
  | VStr s => Ok (strip s)
  | _ => Raise AttributeError
  end.

(** The items a [for] loop draws from an object. *)
Definition py_iter (v : value) : result (list value) :=
  match v with
  | VList l | VTuple l => Ok l
  | VStr s => Ok (map (λ c, VStr (String c EmptyString)) (list_ascii_of_string s))
  | VDict d => Ok (map (λ kv, VStr kv.1) (map_to_list d))
  | _ => Raise TypeError
  end.

(** ** Insertion-ordered dictionaries *)

Abbreviation odict V := (list (string * V)).

Fixpoint od_get {V} (k : string) (d : odict V) : option V :=
  match d with
  | [] => None
  | (k', v) :: d' => if String.eqb k k' then Some v else od_get k d'
  end.

Definition od_mem {V} (k : string) (d : odict V) : bool :=
  match od_get k d with Some _ => true | None => false end.

(** [d[k] = v]: an existing key keeps its position, a new key goes last. *)
Fixpoint od_set {V} (k : string) (v : V) (d : odict V) : odict V :=
  match d with
  | [] => [(k, v)]
  | (k', v') :: d' =>
      if String.eqb k k' then (k', v) :: d' else (k', v') :: od_set k v d'
  end.

(** ** Strings *)

Module Str.

Definition code (c : ascii) : N := N_of_ascii c.

Definition in_range (lo hi : N) (c : ascii) : bool :=
  ((lo <=? code c) && (code c <=? hi))%N.

(** [str.isspace] on one character, which is also [\s] of [re]. *)
Definition isspace (c : ascii) : bool :=
  in_range 9 13 c || in_range 28 32 c || in_range 133 133 c || in_range 160 160 c.

(** [str.isdecimal] on one character, which is also [\d] of [re]. *)
Definition isdigit (c : ascii) : bool := in_range 48 57 c.

(** [\w] of [re]: alphanumeric characters and the underscore. *)
Definition isword (c : ascii) : bool :=
  isdigit c || in_range 65 90 c || in_range 97 122 c || in_range 95 95 c
  || in_range 170 170 c || in_range 178 179 c || in_range 181 181 c
  || in_range 185 186 c || in_range 188 190 c || in_range 192 214 c
  || in_range 216 246 c || in_range 248 255 c.

Fixpoint lstrip (s : string) : string :=
  match s with
  | EmptyString => EmptyString
  | String c s' => if isspace c then lstrip s' else s
  end.

Fixpoint rstrip (s : string) : string :=
  match s with
  | EmptyString => EmptyString
  | String c s' =>
      match rstrip s' with
      | EmptyString => if isspace c then EmptyString else String c EmptyString
      | r => String c r
      end
  end.

(** [s.strip()] *)
Definition strip (s : string) : string := rstrip (lstrip s).

(** [s.replace(old, new)] for a one-character [old]. *)
Fixpoint replace (old : ascii) (new : string) (s : string) : string :=
  match s with
  | EmptyString => EmptyString
  | String c s' =>
      if Ascii.eqb c old then new +:+ replace old new s'
      else String c (replace old new s')
  end.

(** [sub in s] *)
Fixpoint contains (sub s : string) : bool :=
  String.prefix sub s ||
  match s with
  | EmptyString => false
  | String _ s' => contains sub s'
  end.

(** [s.split(sep)] for a one-character [sep]. *)
Fixpoint split (sep : ascii) (s : string) : list string :=
  match s with
  | EmptyString => [EmptyString]
  | String c s' =>
      if Ascii.eqb c sep then EmptyString :: split sep s'
      else match split sep s' with
           | [] => [String c EmptyString]
           | w :: ws => String c w :: ws
           end
  end.

(** [re.split(r"\s+", s)] *)
Fixpoint split_ws_aux (s : string) (in_sep : bool) : list string :=
  match s with
  | EmptyString => [EmptyString]
  | String c s' =>
      if isspace c then
        if in_sep then split_ws_aux s' true
        else EmptyString :: split_ws_aux s' true
      else match split_ws_aux s' false with
           | [] => [String c EmptyString]
           | w :: ws => String c w :: ws
           end
  end.

Definition split_ws (s : string) : list string := split_ws_aux s false.

(** [sep.join(ws)] *)
Fixpoint join (sep : string) (ws : list string) : string :=
  match ws with
  | [] => EmptyString
  | [w] => w
  | w :: ws' => w +:+ sep +:+ join sep ws'
  end.

End Str.

(** ** Floating-point numbers *)

Module PyFloat.

(** [float(n)] for an [int] [n]: the nearest binary64 number, ties to even;
    an integer beyond the range raises [OverflowError]. *)
Definition of_int (z : Z) : result float :=
  match binary_normalize prec emax z 0 false with
  | S754_infinity _ => Raise OverflowError
  | sf => Ok (SF2Prim sf)
  end.

(** The binary64 number nearest to [(-1)^neg * m * 10^e], ties to even, for
    [0 <= m]; infinite beyond the range.  A negative [e] is a division by a
    power of ten: the quotient is taken with at least 56 bits and a sticky
    last bit, which the final rounding to 53 bits reads. *)
Definition of_decimal (neg : bool) (m e : Z) : float :=
  let sgn z := if neg then - z else z in
  if m =? 0 then SF2Prim (S754_zero neg)
  else if 0 <=? e then
    SF2Prim (binary_normalize prec emax (sgn (m * 10 ^ e)) 0 false)
  else
    let q := 10 ^ (- e) in
    let k := Z.max 0 (Z.log2 q - Z.log2 m + 56) in
    let n := (m * 2 ^ k) / q in
    let sticky := if (m * 2 ^ k) mod q =? 0 then 0 else 1 in
    SF2Prim (binary_normalize prec emax (sgn (2 * n + sticky)) (- k - 1) false).

(** The leading decimal digits of [s]: their value on top of [acc], their
    number on top of [n], and the rest of [s]. *)
Fixpoint digits (s : string) (acc n : Z) : Z * Z * string :=
  match s with
  | EmptyString => (acc, n, s)
  | String c s' =>
      if Str.isdigit c
      then digits s' (10 * acc + (Z.of_N (Str.code c) - 48)) (n + 1)
      else (acc, n, s)
  end.

Definition sign (s : string) : bool * string :=
  match s with
  | String "-" s' => (true, s')
  | String "+" s' => (false, s')
  | _ => (false, s)
  end.

(** An optional exponent part; without a digit after [e] nothing is read. *)
Definition exponent (s : string) : Z * string :=
  match s with
  | String c s' =>
      if Ascii.eqb c "e" || Ascii.eqb c "E" then
        let '(neg, s1) := sign s' in
        let '(v, n, rest) := digits s1 0 0 in
        if n =? 0 then (0, s) else (if neg then - v else v, rest)
      else (0, s)
  | EmptyString => (0, s)
  end.

(** The longest prefix of [s] that is a decimal number: its value and the
    rest of [s]; [None] when there is no digit. *)
Definition strtod (s : string) : option (float * string) :=
  let '(neg, s1) := sign s in
  let '(m1, n1, s2) := digits s1 0 0 in
  let '(m, nf, s3) :=
    match s2 with
    | String "." s2' => digits s2' m1 0
    | _ => (m1, 0, s2)
    end in
  if n1 + nf =? 0 then None
  else let '(e, rest) := exponent s3 in
       Some (of_decimal neg m (e - nf), rest).

Definition lower (c : ascii) : ascii :=
  if Str.in_range 65 90 c then ascii_of_N (Str.code c + 32) else c.

(** [pat] is a prefix of [s] up to the case of [s]: the rest of [s]. *)
Fixpoint imatch (pat s : string) : option string :=
  match pat, s with
  | EmptyString, _ => Some s
  | String p pat', String c s' =>
      if Ascii.eqb (lower c) p then imatch pat' s' else None
  | String _ _, EmptyString => None
  end.

Definition parse_inf_or_nan (s : string) : option (float * string) :=
  let '(neg, s1) := sign s in
  match imatch "inf" s1 with
  | Some r =>
      let r' := match imatch "inity" r with Some r2 => r2 | None => r end in
      Some (if neg then neg_infinity else infinity, r')
  | None =>
      match imatch "nan" s1 with
      | Some r => Some (nan, r)
      | None => None
      end
  end.

(** A string with a character beyond ASCII is rewritten before it is read:
    white space becomes a blank, and the string stops with a question mark
    at the first other character from 127 on. *)
Definition is_ascii (s : string) : bool :=
  forallb (fun c => (Str.code c <? 128)%N) (list_ascii_of_string s).

Fixpoint transform (s : string) : string :=
  match s with
  | EmptyString => EmptyString
  | String c s' =>
      if (Str.code c <? 127)%N then String c (transform s')
      else if Str.isspace c then String " " (transform s')
      else "?"
  end.

(** Underscores are dropped; each must stand between two digits. *)
Fixpoint drop_underscores (prev : ascii) (s : string) : option string :=
  match s with
  | EmptyString => if Ascii.eqb prev "_" then None else Some EmptyString
  | String c s' =>
      if Ascii.eqb c "_" then
        if Str.isdigit prev then drop_underscores c s' else None
      else if Ascii.eqb prev "_" && negb (Str.isdigit c) then None
      else option_map (String c) (drop_underscores c s')
  end.

(** White space of the C locale, which [float] strips at both ends. *)
Definition c_isspace (c : ascii) : bool :=
  Str.in_range 9 13 c || Str.in_range 32 32 c.

Fixpoint c_lstrip (s : string) : string :=
  match s with
  | EmptyString => EmptyString
  | String c s' => if c_isspace c then c_lstrip s' else s
  end.

Fixpoint c_rstrip (s : string) : string :=
  match s with
  | EmptyString => EmptyString
  | String c s' =>
      match c_rstrip s' with
      | EmptyString => if c_isspace c then EmptyString else String c EmptyString
      | r => String c r
      end
  end.

(** [float(s)] for a [str] [s]; raises [ValueError] when [s] is not a
    number. *)
Definition of_string (s : string) : result float :=
  let a := if is_ascii s then s else transform s in
  match drop_underscores "000" a with
  | None => Raise ValueError
  | Some b =>
      let t := c_rstrip (c_lstrip b) in
      let r := match strtod t with
               | Some r => Some r
               | None => parse_inf_or_nan t
               end in
      match r with
      | Some (x, EmptyString) => Ok x
      | _ => Raise ValueError
      end
  end.

End PyFloat.

(** ** order_compare.py *)

Module OrderCompare.

Definition _parse_number (v : value) : result (option float) :=
  match v with
  | VNone => Ok None
  | VBool b => Ok (Some (if b then 1%float else 0%float))
  | VInt z => Some <$> PyFloat.of_int z
  | VFloat f => Ok (Some f)
  | VStr s =>
      let cleaned := Str.replace "," "." (Str.replace "." "" s) in
      except_ValueError (Some <$> PyFloat.of_string cleaned) None
  | _ => Ok None
  end.

Record report := {
  differenze : list (odict value);
  righe_mancanti_nella_conferma : list value;
  righe_extra_nella_conferma : list value
}.

(** [doc.get("righe", []) or []] *)
Definition lines_of (doc : gmap string value) : value :=
  py_or (default (VList []) (doc !! "righe")) (VList []).

(** The key of a line in the comprehension [{(line.get("codice") or
    "").strip(): line for line in lines if line.get("codice") is not None}]:
    [None] for a line that the filter leaves out. *)
Definition line_key (line : value) : result (option string) :=
  c ← py_get line "codice";
  if is_none c then Ok None
  else
    c' ← py_get line "codice";
    k ← py_strip Str.strip (py_or c' (VStr ""));
    Ok (Some k).

Fixpoint index_lines (lines : list value) (d : odict value) : result (odict value) :=
  match lines with
  | [] => Ok d
  | line :: rest =>
      k ← line_key line;
      match k with
      | None => index_lines rest d
      | Some code => index_lines rest (od_set code line d)
      end
  end.

Definition build_index (doc : gmap string value) : result (odict value) :=
  lines ← py_iter (lines_of doc);
  index_lines lines [].

(** [a is not None and b is not None and a != b] *)
Definition differ (a b : option float) : bool :=
  match a, b with
  | Some x, Some y => negb (PrimFloat.eqb x y)
  | _, _ => false
  end.

Definition opt_value (a : option float) : value :=
  match a with
  | Some x => VFloat x
  | None => VNone
  end.

Definition unit_note : string :=
  "Possibile differenza unit" +:+ String "224" " di misura (pezzi vs cartoni).".

(** [d.setdefault(k, []).append(x)] *)
Definition setdefault_append (k : string) (x : value) (d : odict value) : result (odict value) :=
  match od_get k d with
  | None => Ok (od_set k (VList [x]) d)
  | Some (VList l) => Ok (od_set k (VList (l ++ [x])) d)
  | Some _ => Raise AttributeError
  end.

(** The body of the first loop for a code present on both sides. *)
Definition compare_line (code : string) (o_line c_line : value) (tolerance : float)
  : result (odict value) :=
  let discrepancy : odict value := [("codice", VStr code)] in
  o_qta ← py_get o_line "quantita" ≫= _parse_number;
  c_qta ← py_get c_line "quantita" ≫= _parse_number;
  let discrepancy :=
    if differ o_qta c_qta
    then od_set "quantita" (VTuple [opt_value o_qta; opt_value c_qta]) discrepancy
    else discrepancy in
  o_price ← py_get o_line "prezzo_unitario" ≫= _parse_number;
  c_price ← py_get c_line "prezzo_unitario" ≫= _parse_number;
  let discrepancy :=
    if differ o_price c_price
    then od_set "prezzo_unitario" (VTuple [opt_value o_price; opt_value c_price]) discrepancy
    else discrepancy in
  o_total ← py_get o_line "totale_riga" ≫= _parse_number;
  c_total ← py_get c_line "totale_riga" ≫= _parse_number;
  let discrepancy :=
    if differ o_total c_total
    then od_set "totale_riga" (VTuple [opt_value o_total; opt_value c_total]) discrepancy
    else discrepancy in
  if differ o_qta c_qta then
    match o_total, c_total with
    | Some ot, Some ct =>
        if negb (PrimFloat.eqb ot 0%float) then
          let rel_diff := PrimFloat.div (PrimFloat.abs (PrimFloat.sub ot ct)) ot in
          if PrimFloat.ltb rel_diff tolerance
          then setdefault_append "nota" (VStr unit_note) discrepancy
          else Ok discrepancy
        else Ok discrepancy
    | _, _ => Ok discrepancy
    end
  else Ok discrepancy.

(** The first loop, over [orig_dict.items()]. *)
Fixpoint scan_original (items conf_dict : odict value) (tolerance : float)
    (differences : list (odict value)) (missing_in_conf : list value)
  : result (list (odict value) * list value) :=
  match items with
  | [] => Ok (differences, missing_in_conf)
  | (code, o_line) :: rest =>
      match od_get code conf_dict with
      | None =>
          scan_original rest conf_dict tolerance differences (missing_in_conf ++ [o_line])
      | Some c_line =>
          discrepancy ← compare_line code o_line c_line tolerance;
          if (1 <? length discrepancy)%nat
          then scan_original rest conf_dict tolerance (differences ++ [discrepancy]) missing_in_conf
          else scan_original rest conf_dict tolerance differences missing_in_conf
      end
  end.

(** The second loop, over [conf_dict.items()]. *)
Fixpoint scan_confirmation (items orig_dict : odict value) (extra_in_conf : list value)
  : list value :=
  match items with
  | [] => extra_in_conf
  | (code, c_line) :: rest =>
      if od_mem code orig_dict
      then scan_confirmation rest orig_dict extra_in_conf
      else scan_confirmation rest orig_dict (extra_in_conf ++ [c_line])
  end.

Definition default_tolerance : float := 0.05%float.

Definition compare_orders (original confirmation : gmap string value) (tolerance : float)
  : result report :=
  orig_dict ← build_index original;
  conf_dict ← build_index confirmation;
  '(differences, missing_in_conf) ← scan_original orig_dict conf_dict tolerance [] [];
  let extra_in_conf := scan_confirmation conf_dict orig_dict [] in
  Ok {| differenze := differences;
        righe_mancanti_nella_conferma := missing_in_conf;
        righe_extra_nella_conferma := extra_in_conf |}.

End OrderCompare.

(** ** parse_orders.py *)

Module ParseOrders.

Definition _parse_number (token : string) : result float :=
  PyFloat.of_string (Str.replace "," "." (Str.replace "." "" token)).

(** [re.match(r"^\d{4}\b", s)] finds a match. *)
Definition row_pattern (s : string) : bool :=
  match s with
  | String a (String b (String c (String d rest))) =>
      Str.isdigit a && Str.isdigit b && Str.isdigit c && Str.isdigit d &&
      match rest with
      | EmptyString => true
      | String e _ => negb (Str.isword e)
      end
  | _ => false
  end.

(** [l[i]] and [l[-i]] *)
Definition item (l : list string) (i : nat) : result string :=
  match l !! i with
  | Some x => Ok x
  | None => Raise IndexError
  end.

Definition item_from_end (l : list string) (i : nat) : result string :=
  if (length l <? i)%nat then Raise IndexError else item l (length l - i).

(** The body of the loop for a line that matches the row pattern: the record
    to append, or [None] where the source says [continue]. *)
Definition parse_row (stripped : string) : result (option value) :=
  let parts := Str.split_ws stripped in
  if (length parts <? 8)%nat then Ok None
  else
    code ← item parts 0;
    supplier_code ← item parts 1;
    let remainder := drop 2 parts in
    if (length remainder <? 6)%nat then Ok None
    else
      unita_misura ← item_from_end remainder 6;
      quantity_token ← item_from_end remainder 5;
      price_token ← item_from_end remainder 4;
      discount_token ← item_from_end remainder 3;
      importo_token ← item_from_end remainder 2;
      iva_token ← item_from_end remainder 1;
      let description :=
        Str.strip (Str.join " " (take (length remainder - 6) remainder)) in
      let numbers :=
        quantity ← _parse_number quantity_token;
        price_unit ← _parse_number price_token;
        importo ← _parse_number importo_token;
        Ok (quantity, price_unit, importo) in
      match numbers with
      | Raise ValueError => Ok None
      | Raise e => Raise e
      | Ok (quantity, price_unit, importo) =>
          Ok (Some (VDict (<["codice" := VStr code]>
                          (<["codice_fornitore" := VStr supplier_code]>
                          (<["descrizione" := VStr description]>
                          (<["unita_misura" := VStr unita_misura]>
                          (<["quantita" := VFloat quantity]>
                          (<["prezzo_unitario" := VFloat price_unit]>
                          (<["importo" := VFloat importo]> ∅)))))))))
      end.

(** The loop over the lines of the text, with its flag and its [break]. *)
Fixpoint scan_lines (lines : list string) (table_started : bool) (items : list value)
  : result (list value) :=
  match lines with
  | [] => Ok items
  | line :: rest =>
      if negb table_started then
        if Str.contains "Codice Fornitore" line && Str.contains "Descrizione" line
        then scan_lines rest true items
        else scan_lines rest table_started items
      else if Str.contains "Totale Merce" line then Ok items
      else
        let stripped := Str.strip line in
        if String.eqb stripped "" then scan_lines rest table_started items
        else if row_pattern stripped then
          r ← parse_row stripped;
          match r with
          | None => scan_lines rest table_started items
          | Some it => scan_lines rest table_started (items ++ [it])
          end
        else scan_lines rest table_started items
  end.

Section Extraction.

(** The conversion step, [subprocess.check_output(["pdftotext", "-layout",
    pdf_path, "-"]).decode("utf-8")]: an external program. *)
Variable pdftotext : string → result string.

Definition parse_items (pdf_path : string) : result (list value) :=
  raw_text ← pdftotext pdf_path;
  let lines := Str.split "010" raw_text in
  scan_lines lines false [].

End Extraction.

End ParseOrders.

(** ** Notions used to state the properties *)

Import OrderCompare.

(** A document with the given records as its [righe]. *)
Definition document (rows : list (gmap string value)) : gmap string value :=
  {[ "righe" := VList (VDict <$> rows) ]}.

(** The line has the trimmed code [k]. *)
Definition has_code (k : string) (line : value) : bool :=
  match line_key line with
  | Ok (Some k') => String.eqb k k'
  | _ => false
  end.

(** The last record of a sequence that has the trimmed code [k]. *)
Fixpoint last_with_code (k : string) (lines : list value) : option value :=
  match lines with
  | [] => None
  | line :: rest =>
      match last_with_code k rest with
      | Some later => Some later
      | None => if has_code k line then Some line else None
      end
  end.

(** The fields that [compare_orders] converts to numbers. *)
Definition numeric_fields : list string :=
  ["quantita"; "prezzo_unitario"; "totale_riga"].

(** [float(v)] does not overflow: [v] is not an integer beyond the range of
    binary64. *)
Definition fits_float (v : value) : Prop :=
  ∀ z, v = VInt z → ∃ x, PyFloat.of_int z = Ok x.

(** A [codice] that the index can take: nothing, a string, or an object that
    counts as false. *)
Definition code_ok (c : value) : Prop :=
  c = VNone ∨ (∃ s, c = VStr s) ∨ truthy c = false.

Definition record_ok (line : value) : Prop :=
  ∃ d, line = VDict d ∧ code_ok (dict_get "codice" d) ∧
       ∀ f, f ∈ numeric_fields → fits_float (dict_get f d).

(** The [righe] of a document are missing, false, or a list of such records. *)
Definition righe_ok (doc : gmap string value) : Prop :=
  match doc !! "righe" with
  | None => True
  | Some v => truthy v = false ∨ ∃ lines, v = VList lines ∧ Forall record_ok lines
  end.

(** The value converts to no number, or to a number that is not NaN. *)
Definition clean_number (v : value) : Prop :=
  ∃ r, _parse_number v = Ok r ∧ r ≠ Some nan.

(** The [codice] of a record, as it stands in the record. *)
Definition raw_code (line : value) : value :=
  match line with
  | VDict d => dict_get "codice" d
  | _ => VNone
  end.

(** The trimmed code of a record, read off the record and not off the
    index: the string under [codice] without the white space at its two
    ends.  A record whose [codice] is absent or [None] has no code; a
    [codice] that counts as false stands for the empty string, and any
    other [codice] is not a code. *)
Definition trimmed_code (line : value) : option string :=
  match raw_code line with
  | VNone => None
  | VStr s => Some (Str.strip s)
  | v => if truthy v then None else Some ""
  end.

(** [b] is the last record of the sequence whose trimmed code is [k]. *)
Definition last_of_code (k : string) (lines : list value) (b : value) : Prop :=
  ∃ pre post,
    lines = (pre ++ b :: post)%list ∧
    trimmed_code b = Some k ∧
    Forall (λ x, trimmed_code x ≠ Some k) post.

(** [a] and [b] are two records of the sequence that share the trimmed code
    [k]: [a] occurs before [b], and [b] is the last record with this code. *)
Definition two_sharing (k : string) (lines : list value) (a b : value) : Prop :=
  ∃ pre mid post,
    lines = (pre ++ a :: mid ++ b :: post)%list ∧
    trimmed_code a = Some k ∧ trimmed_code b = Some k ∧
    Forall (λ x, trimmed_code x ≠ Some k) post.

(** A record with a non-empty string as its code and clean numbers. *)
Definition clean_record (line : value) : Prop :=
  ∃ d s, line = VDict d ∧ dict_get "codice" d = VStr s ∧ s ≠ "" ∧
         ∀ f, f ∈ numeric_fields → clean_number (dict_get f d).

(** A record whose [codice] is absent or [None]. *)
Definition no_code (line : value) : Prop :=
  ∃ d, line = VDict d ∧ dict_get "codice" d = VNone.

(** Some item of the list has the trimmed code [k]. *)
Definition code_among (k : string) (items : list value) : Prop :=
  ∃ v, v ∈ items ∧ line_key v = Ok (Some k).

(** Some discrepancy record of the list is for the code [k]. *)
Definition code_among_records (k : string) (records : list (odict value)) : Prop :=
  ∃ d, d ∈ records ∧ od_get "codice" d = Some (VStr k).

(** The field of an extracted record holds the number that some token
    parsed to. *)
Definition has_number (d : gmap string value) (field : string) : Prop :=
  ∃ token x, ParseOrders._parse_number token = Ok x ∧ d !! field = Some (VFloat x).

Definition numeric_record (r : value) : Prop :=
  ∃ d, r = VDict d ∧
       has_number d "quantita" ∧ has_number d "prezzo_unitario" ∧
       has_number d "importo".

(** ** Scenarios *)

Module Scenario.

(** The end-to-end scenario, with the line total spelled [importo]. *)
Definition row_0001 (price total : float) (total_key : string) : gmap string value :=
  {[ "codice" := VStr "0001"; "quantita" := VInt 5;
     "prezzo_unitario" := VFloat price; total_key := VFloat total ]}.
Definition row_0002 : gmap string value :=
  {[ "codice" := VStr "0002"; "quantita" := VInt 3 ]}.
Definition row_0003 : gmap string value :=
  {[ "codice" := VStr "0003"; "quantita" := VInt 1 ]}.

Definition e2e_original (total_key : string) : gmap string value :=
  document [row_0001 2.0 10.0 total_key; row_0002].
Definition e2e_confirmation (total_key : string) : gmap string value :=
  document [row_0001 2.5 12.5 total_key; row_0003].

(** The unit-mismatch scenario. *)
Definition unit_original : gmap string value :=
  document [ {[ "codice" := VStr "0001"; "quantita" := VInt 10;
                "totale_riga" := VFloat 100.0 ]} ].
Definition unit_confirmation : gmap string value :=
  document [ {[ "codice" := VStr "0001"; "quantita" := VInt 1;
                "totale_riga" := VFloat 98.0 ]} ].
Definition unit_record : odict value :=
  [("codice", VStr "0001");
   ("quantita", VTuple [VFloat 10; VFloat 1]);
   ("totale_riga", VTuple [VFloat 100; VFloat 98]);
   ("nota", VList [VStr unit_note])].

(** A record with an empty code, one with a blank code, one with a number as
    its code, one without a code. *)
Definition empty_code_row : gmap string value := {[ "codice" := VStr "" ]}.
Definition blank_code_row : gmap string value := {[ "codice" := VStr "  " ]}.
Definition number_code_row : gmap string value := {[ "codice" := VInt 7 ]}.
Definition no_code_row : gmap string value := {[ "quantita" := VInt 2 ]}.

(** A record whose quantity is the text [nan]. *)
Definition nan_row : gmap string value :=
  {[ "codice" := VStr "0001"; "quantita" := VStr "nan" ]}.

(** Two records with the same code up to white space. *)
Definition first_0007 : gmap string value :=
  {[ "codice" := VStr "0007"; "quantita" := VInt 1 ]}.
Definition second_0007 : gmap string value :=
  {[ "codice" := VStr " 0007 "; "quantita" := VInt 2 ]}.

(** The text of a document with a table of three rows, the last of which
    has a price that is not a number. *)
Definition newline : string := String "010" EmptyString.
Definition order_text : string :=
  "Ordine 357" +:+ newline +:+
  "Codice  Codice Fornitore  Descrizione  UM  Q.ta  Prezzo  Sc.  Importo  IVA" +:+ newline +:+
  "  0001  AB12  vite a testa piana  PZ  5,00  1.234,56  0  6.172,80  22" +:+ newline +:+
  newline +:+
  "  0002  CD34  PZ  3  2,5  0  7,5  22" +:+ newline +:+
  "  0003  EF56  dado  PZ  1  n.d.  0  4  22" +:+ newline +:+
  "  Totale Merce  6.180,30" +:+ newline.

Definition extracted_0001 : gmap string value :=
  <["codice" := VStr "0001"]>
  (<["codice_fornitore" := VStr "AB12"]>
  (<["descrizione" := VStr "vite a testa piana"]>
  (<["unita_misura" := VStr "PZ"]>
  (<["quantita" := VFloat 5]>
  (<["prezzo_unitario" := VFloat 1234.56]>
  (<["importo" := VFloat 6172.8]> ∅)))))).
Definition extracted_0002 : gmap string value :=
  <["codice" := VStr "0002"]>
  (<["codice_fornitore" := VStr "CD34"]>
  (<["descrizione" := VStr ""]>
  (<["unita_misura" := VStr "PZ"]>
  (<["quantita" := VFloat 3]>
  (<["prezzo_unitario" := VFloat 2.5]>
  (<["importo" := VFloat 7.5]> ∅)))))).

End Scenario.

(** ** Further notions *)

(** The trimmed codes of the lines that have one, in the order of the lines. *)
Definition line_codes (lines : list value) : list string :=
  omap (λ line, match line_key line with Ok ko => ko | Raise _ => None end) lines.

(** The elements of a list in the order in which they first occur. *)
Fixpoint first_occurrences (ks : list string) : list string :=
  match ks with
  | [] => []
  | k :: ks' => k :: filter (λ k', k' ≠ k) (first_occurrences ks')
  end.


(** [d.pop(k, None)]: the dictionary without the key [k]. *)
Fixpoint od_del {V} (k : string) (d : odict V) : odict V :=
  match d with
  | [] => []
  | (k', v) :: d' => if String.eqb k k' then d' else (k', v) :: od_del k d'
  end.

(** A discrepancy record without its note. *)
Definition without_note (d : odict value) : odict value := od_del "nota" d.

(** The codes of the discrepancy records that have one, in their order. *)
Definition record_codes (records : list (odict value)) : list string :=
  omap (λ d, match od_get "codice" d with Some (VStr k) => Some k | _ => None end)
       records.

(** The line holds the two headers of the table. *)
Definition is_header (line : string) : bool :=
  Str.contains "Codice Fornitore" line && Str.contains "Descrizione" line.

(** The line holds the label of the totals. *)
Definition is_terminator (line : string) : bool :=
  Str.contains "Totale Merce" line.

(** The record that a line of the table gives, if it gives one. *)
Definition row_of (line : string) : option value :=
  let stripped := Str.strip line in
  if String.eqb stripped "" then None
  else if ParseOrders.row_pattern stripped then
    match ParseOrders.parse_row stripped with
    | Ok r => r
    | Raise _ => None
    end
  else None.

(** The dictionary that [parse_items] appends for a row. *)
Definition row_record (code supplier_code description unita_misura : string)
    (quantity price_unit importo : float) : value :=
  VDict (<["codice" := VStr code]>
        (<["codice_fornitore" := VStr supplier_code]>
        (<["descrizione" := VStr description]>
        (<["unita_misura" := VStr unita_misura]>
        (<["quantita" := VFloat quantity]>
        (<["prezzo_unitario" := VFloat price_unit]>
        (<["importo" := VFloat importo]> ∅))))))).

(** ** api.py *)

Module Api.

(** The body of a response: a message, the exception that was caught, or
    the report. *)
Inductive body :=
| ErrorMessage (message : string)
| ErrorOf (exc : exn)
| Comparison (comparison_result : report).

Section Endpoint.

Variable pdftotext : string → result string.

(** [compare_files], from the two uploads of the request to the body and
    the status of the response.  An upload is [None] when the request has
    none (or one that counts as false), and otherwise the path of the
    temporary file it is saved to; the saving of the uploads and the
    removal of the temporary files are left out. *)
Definition compare_files (order_file confirm_file : option string) : body * Z :=
  match order_file, confirm_file with
  | Some order_path, Some confirm_path =>
      let outcome :=
        order_items ← ParseOrders.parse_items pdftotext order_path;
        confirm_items ← ParseOrders.parse_items pdftotext confirm_path;
        let order_json : gmap string value := {[ "righe" := VList order_items ]} in
        let confirm_json : gmap string value := {[ "righe" := VList confirm_items ]} in
        compare_orders order_json confirm_json default_tolerance in
      match outcome with
      | Ok comparison_result => (Comparison comparison_result, 200)
      | Raise exc => (ErrorOf exc, 500)
      end
  | _, _ => (ErrorMessage "Both 'order' and 'confirm' files are required.", 400)
  end.

End Endpoint.

End Api.

(** * Properties *)

(** ** Ordered dictionaries *)

Section Odict.
Context {V : Type}.
Implicit Types (d : odict V) (k : string) (v : V).

Lemma od_get_set k k' v d :
  od_get k' (od_set k v d) = if String.eqb k' k then Some v else od_get k' d.
Proof.
  induction d as [|[k0 v0] d IH]; simpl.
  - by destruct (String.eqb_spec k' k).
  - destruct (String.eqb_spec k k0) as [->|Hne]; simpl.
    + by destruct (String.eqb_spec k' k0).
    + rewrite IH. destruct (String.eqb_spec k' k0) as [->|]; [|done].
      destruct (String.eqb_spec k0 k); congruence.
Qed.

Lemma od_get_elem k v d : od_get k d = Some v → (k, v) ∈ d.
Proof.
  induction d as [|[k0 v0] d IH]; simpl; [done|].
  destruct (String.eqb_spec k k0) as [->|]; intros H.
  - injection H as ->. left.
  - right. auto.
Qed.

Lemma od_get_None k d : od_get k d = None ↔ k ∉ d.*1.
Proof.
  induction d as [|[k0 v0] d IH]; simpl.
  - split; [intros _; apply not_elem_of_nil|done].
  - rewrite not_elem_of_cons. destruct (String.eqb_spec k k0) as [->|]; [|tauto].
    split; [done|tauto].
Qed.

Lemma od_get_NoDup k v d : NoDup d.*1 → (k, v) ∈ d → od_get k d = Some v.
Proof.
  induction d as [|[k0 v0] d IH]; simpl; intros Hnd Hin.
  - by apply elem_of_nil in Hin.
  - apply NoDup_cons in Hnd as [Hk0 Hnd].
    apply elem_of_cons in Hin as [[= -> ->]|Hin].
    + by rewrite String.eqb_refl.
    + destruct (String.eqb_spec k k0) as [->|]; [|auto].
      exfalso. apply Hk0. apply list_elem_of_fmap. by exists (k0, v).
Qed.

Lemma od_set_elem k v k' v' d :
  (k', v') ∈ od_set k v d → (k', v') = (k, v) ∨ (k', v') ∈ d.
Proof.
  induction d as [|[k0 v0] d IH]; simpl.
  - intros ?%list_elem_of_singleton. by left.
  - destruct (String.eqb_spec k k0) as [->|]; rewrite !elem_of_cons.
    + intros [->|?]; auto.
    + intros [->|?]; [auto|]. destruct IH; auto.
Qed.

Lemma od_set_keys k v d :
  (od_set k v d).*1 = if od_mem k d then d.*1 else (d.*1 ++ [k])%list.
Proof.
  unfold od_mem. induction d as [|[k0 v0] d IH]; [done|].
  cbn [od_set od_get]. destruct (String.eqb_spec k k0) as [->|]; [done|].
  rewrite !fmap_cons, IH. by destruct (od_get k d).
Qed.

Lemma od_set_NoDup k v d : NoDup d.*1 → NoDup (od_set k v d).*1.
Proof.
  intros Hnd. rewrite od_set_keys. unfold od_mem.
  destruct (od_get k d) eqn:E; [done|].
  apply NoDup_app. split_and!; [done| |apply NoDup_singleton].
  intros x Hx ->%list_elem_of_singleton. by apply od_get_None in E.
Qed.

End Odict.

(** ** The error monad *)

Lemma bind_Ok {A B} (m : result A) (f : A → result B) b :
  m ≫= f = Ok b → ∃ a, m = Ok a ∧ f a = Ok b.
Proof. destruct m as [a|e]; [|done]. intros H. by exists a. Qed.

(** ** Binary64 equality *)

Lemma SFcompare_refl (x : spec_float) :
  x ≠ S754_nan → SFcompare x x = Some Eq.
Proof.
  destruct x as [[]|[]| |[] m e]; try done; intros _; simpl.
  - rewrite Z.compare_refl. by rewrite Pos.compare_cont_refl.
  - rewrite Z.compare_refl. by rewrite Pos.compare_refl.
Qed.

Lemma float_eqb_refl (x : float) : x ≠ nan → PrimFloat.eqb x x = true.
Proof.
  intros Hx. rewrite FloatAxioms.eqb_spec. unfold SFeqb.
  rewrite SFcompare_refl; [done|].
  intros Hnan. apply Hx. rewrite <- (SF2Prim_Prim2SF x). by rewrite Hnan.
Qed.

(** ** The code index *)

Section Index.
Implicit Types (lines : list value) (d idx : odict value) (k : string) (v : value).

Lemma index_lines_cons line lines d idx :
  index_lines (line :: lines) d = Ok idx →
  (line_key line = Ok None ∧ index_lines lines d = Ok idx) ∨
  (∃ code, line_key line = Ok (Some code) ∧
           index_lines lines (od_set code line d) = Ok idx).
Proof.
  cbn [index_lines]. intros (ko & Hk & H)%bind_Ok.
  destruct ko as [code|]; [right; by exists code|by left].
Qed.

Lemma index_lines_get lines d idx k :
  index_lines lines d = Ok idx →
  od_get k idx =
    match last_with_code k lines with
    | Some v => Some v
    | None => od_get k d
    end.
Proof.
  revert d. induction lines as [|line lines IH]; intros d H.
  - by injection H as ->.
  - cbn [last_with_code]. unfold has_code.
    apply index_lines_cons in H as [[Hk H]|(code & Hk & H)];
      apply IH in H; rewrite H, Hk; destruct (last_with_code k lines); try done.
    rewrite od_get_set. by destruct (String.eqb k code).
Qed.

Lemma index_lines_elem lines d idx k v :
  index_lines lines d = Ok idx → (k, v) ∈ idx →
  (k, v) ∈ d ∨ (v ∈ lines ∧ line_key v = Ok (Some k)).
Proof.
  revert d. induction lines as [|line lines IH]; intros d H Hin.
  - injection H as ->. by left.
  - apply index_lines_cons in H as [[Hk H]|(code & Hk & H)].
    + destruct (IH _ H Hin) as [?|[? ?]]; [by left|right]. split; [by right|done].
    + destruct (IH _ H Hin) as [Hd|[? ?]].
      * apply od_set_elem in Hd as [[= -> ->]|?]; [right|by left].
        split; [left|done].
      * right. split; [by right|done].
Qed.

Lemma index_lines_NoDup lines d idx :
  index_lines lines d = Ok idx → NoDup d.*1 → NoDup idx.*1.
Proof.
  revert d. induction lines as [|line lines IH]; intros d H Hnd.
  - by injection H as <-.
  - apply index_lines_cons in H as [[Hk H]|(code & Hk & H)]; eapply IH; eauto.
    by apply od_set_NoDup.
Qed.

Lemma index_lines_total lines d :
  Forall (λ line, ∃ ko, line_key line = Ok ko) lines →
  ∃ idx, index_lines lines d = Ok idx.
Proof.
  intros H. revert d. induction H as [|line lines [ko Hk] _ IH]; intros d.
  - by exists d.
  - cbn [index_lines]. rewrite Hk. destruct ko; apply IH.
Qed.

End Index.

(** ** The comparison of two matched lines *)

Section CompareLine.
Implicit Types (k : string) (o c : value) (t : float) (d : odict value).

(** What [compare_line] read from the two lines, and the record it built. *)
Lemma compare_line_inv k o c t d :
  compare_line k o c t = Ok d →
  ∃ oq cq op cp ot ct,
    py_get o "quantita" ≫= _parse_number = Ok oq ∧
    py_get c "quantita" ≫= _parse_number = Ok cq ∧
    py_get o "prezzo_unitario" ≫= _parse_number = Ok op ∧
    py_get c "prezzo_unitario" ≫= _parse_number = Ok cp ∧
    py_get o "totale_riga" ≫= _parse_number = Ok ot ∧
    py_get c "totale_riga" ≫= _parse_number = Ok ct ∧
    let d1 := if differ oq cq
              then [("codice", VStr k); ("quantita", VTuple [opt_value oq; opt_value cq])]
              else [("codice", VStr k)] in
    let d2 := if differ op cp
              then (d1 ++ [("prezzo_unitario", VTuple [opt_value op; opt_value cp])])%list
              else d1 in
    let d3 := if differ ot ct
              then (d2 ++ [("totale_riga", VTuple [opt_value ot; opt_value ct])])%list
              else d2 in
    d = d3 ∨ (differ oq cq = true ∧ d = (d3 ++ [("nota", VList [VStr unit_note])])%list).
Proof.
  unfold compare_line. cbv zeta.
  intros (oq & Hoq & H)%bind_Ok. apply bind_Ok in H as (cq & Hcq & H).
  apply bind_Ok in H as (op & Hop & H). apply bind_Ok in H as (cp & Hcp & H).
  apply bind_Ok in H as (ot & Hot & H). apply bind_Ok in H as (ct & Hct & H).
  exists oq, cq, op, cp, ot, ct. split_and!; try done.
  unfold setdefault_append in H.
  destruct (differ oq cq) eqn:Eq, (differ op cp) eqn:Ep, (differ ot ct) eqn:Et;
    cbn in H |- *;
    repeat match type of H with
      | context [match ?x with _ => _ end] => destruct x
      end;
    injection H as <-; auto.
Qed.

End CompareLine.

Lemma differ_true (a b : option float) :
  differ a b = true →
  ∃ x y, a = Some x ∧ b = Some y ∧ PrimFloat.eqb x y = false.
Proof.
  destruct a as [x|], b as [y|]; try done. simpl.
  intros H%negb_true_iff. by exists x, y.
Qed.

Lemma differ_same (a : option float) : a ≠ Some nan → differ a a = false.
Proof.
  destruct a as [x|]; [|done]. intros H. simpl.
  rewrite float_eqb_refl; [done|]. congruence.
Qed.

Lemma compare_line_codice k o c t d :
  compare_line k o c t = Ok d → od_get "codice" d = Some (VStr k).
Proof.
  intros (oq & cq & op & cp & ot & ct & _ & _ & _ & _ & _ & _ & H)%compare_line_inv.
  cbv zeta in H. by destruct H as [->|[_ ->]]; repeat case_match.
Qed.

Lemma compare_line_nota k o c t d :
  compare_line k o c t = Ok d → od_mem "nota" d = true →
  ∃ x y, od_get "quantita" d = Some (VTuple [VFloat x; VFloat y]) ∧
         PrimFloat.eqb x y = false.
Proof.
  intros (oq & cq & op & cp & ot & ct & _ & _ & _ & _ & _ & _ & H)%compare_line_inv.
  cbv zeta in H. destruct H as [->|[Hq ->]].
  - by repeat case_match.
  - intros _. rewrite Hq. apply differ_true in Hq as (x & y & -> & -> & Hxy).
    exists x, y. split; [|done]. by repeat case_match.
Qed.

(** Only an integer beyond the range of binary64 makes [_parse_number]
    raise. *)
Lemma of_string_raises s e : PyFloat.of_string s = Raise e → e = ValueError.
Proof.
  unfold PyFloat.of_string. repeat case_match; congruence.
Qed.

Lemma parse_number_total v :
  (∀ z, v = VInt z → ∃ x, PyFloat.of_int z = Ok x) →
  ∃ r, _parse_number v = Ok r.
Proof.
  intros Hint. destruct v; simpl; eauto.
  - destruct (Hint z eq_refl) as [x ->]. by eexists.
  - destruct (PyFloat.of_string _) as [x|e] eqn:E; [by eexists|].
    apply of_string_raises in E as ->. by eexists.
Qed.

Lemma setdefault_append_fresh k x (d : odict value) :
  od_get k d = None → setdefault_append k x d = Ok (od_set k (VList [x]) d).
Proof. unfold setdefault_append. by intros ->. Qed.

Lemma compare_line_total k o c t :
  (∀ f, f ∈ ["quantita"; "prezzo_unitario"; "totale_riga"] →
        (∃ r, py_get o f ≫= _parse_number = Ok r) ∧
        (∃ r, py_get c f ≫= _parse_number = Ok r)) →
  ∃ d, compare_line k o c t = Ok d.
Proof.
  intros H.
  destruct (H "quantita") as [[oq Hoq] [cq Hcq]]; [repeat constructor|].
  destruct (H "prezzo_unitario") as [[op Hop] [cp Hcp]]; [repeat constructor|].
  destruct (H "totale_riga") as [[ot Hot] [ct Hct]]; [repeat constructor|].
  unfold compare_line. rewrite Hoq, Hcq, Hop, Hcp, Hot, Hct.
  cbn [mbind result_bind]. cbv zeta.
  destruct (differ oq cq), (differ op cp), (differ ot ct);
    (rewrite ?setdefault_append_fresh by reflexivity);
    repeat case_match; eauto.
Qed.

(** ** The two loops *)

Section Loops.
Implicit Types (items conf orig : odict value) (t : float).

Lemma scan_confirmation_elem items orig extra v :
  v ∈ scan_confirmation items orig extra ↔
  v ∈ extra ∨ ∃ k, (k, v) ∈ items ∧ od_get k orig = None.
Proof.
  revert extra. induction items as [|[k0 c0] items IH]; intros extra; simpl.
  - split; [by left|]. intros [?|(k & []%elem_of_nil & _)]. done.
  - unfold od_mem. destruct (od_get k0 orig) eqn:E; rewrite IH.
    + split; intros [?|(k & Hin & Hk)]; auto; right; exists k.
      * split; [by right|done].
      * apply elem_of_cons in Hin as [[= -> ->]|?]; [congruence|done].
    + rewrite elem_of_app, list_elem_of_singleton.
      split; [intros [[?| ->]|(k & Hin & Hk)]|intros [?|(k & Hin & Hk)]]; auto.
      * right. exists k0. split; [left|done].
      * right. exists k. split; [by right|done].
      * apply elem_of_cons in Hin as [[= -> ->]|?]; [auto|].
        right. by exists k.
Qed.

Lemma scan_original_elem items conf t diffs miss diffs' miss' :
  scan_original items conf t diffs miss = Ok (diffs', miss') →
  (∀ v, v ∈ miss' ↔ v ∈ miss ∨ ∃ k, (k, v) ∈ items ∧ od_get k conf = None) ∧
  (∀ d, d ∈ diffs' ↔
        d ∈ diffs ∨
        ∃ k o c, (k, o) ∈ items ∧ od_get k conf = Some c ∧
                 compare_line k o c t = Ok d ∧ (1 < length d)%nat).
Proof.
  revert diffs miss. induction items as [|[k0 o0] items IH]; intros diffs miss; simpl.
  - intros [= <- <-]. split; intros x.
    + split; [by left|]. intros [?|(k & []%elem_of_nil & _)]. done.
    + split; [by left|]. intros [?|(k & o & c & []%elem_of_nil & _)]. done.
  - destruct (od_get k0 conf) as [c0|] eqn:E.
    + intros (d0 & Hd0 & H)%bind_Ok.
      destruct (Nat.ltb_spec 1 (length d0)) as [Hlen|Hlen];
        apply IH in H as [Hm Hd]; split; intros x; rewrite ?Hm, ?Hd.
      * split; intros [?|(k & Hin & Hk)]; auto; right; exists k.
        -- split; [by right|done].
        -- apply elem_of_cons in Hin as [[= -> ->]|?]; [congruence|done].
      * rewrite elem_of_app, list_elem_of_singleton.
        split; [intros [[?| ->]|(k & o & c & Hin & Hk)]
               |intros [?|(k & o & c & Hin & Hk & Hc & Hl)]]; auto.
        -- right. exists k0, o0, c0. split_and!; [left|done..].
        -- right. exists k, o, c. split; [by right|done].
        -- apply elem_of_cons in Hin as [[= -> ->]|?].
           ++ left. right. congruence.
           ++ right. by exists k, o, c.
      * split; intros [?|(k & Hin & Hk)]; auto; right; exists k.
        -- split; [by right|done].
        -- apply elem_of_cons in Hin as [[= -> ->]|?]; [congruence|done].
      * split; [intros [?|(k & o & c & Hin & Hk)]
               |intros [?|(k & o & c & Hin & Hk & Hc & Hl)]]; auto.
        -- right. exists k, o, c. split; [by right|done].
        -- apply elem_of_cons in Hin as [[= -> ->]|?].
           ++ exfalso. assert (d0 = x) as -> by congruence. lia.
           ++ right. by exists k, o, c.
    + intros H. apply IH in H as [Hm Hd]; split; intros x; rewrite ?Hm, ?Hd.
      * rewrite elem_of_app, list_elem_of_singleton.
        split; [intros [[?| ->]|(k & Hin & Hk)]|intros [?|(k & Hin & Hk)]]; auto.
        -- right. exists k0. split; [left|done].
        -- right. exists k. split; [by right|done].
        -- apply elem_of_cons in Hin as [[= -> ->]|?]; [auto|].
           right. by exists k.
      * split; intros [?|(k & o & c & Hin & Hk)]; auto; right; exists k, o, c.
        -- split; [by right|done].
        -- apply elem_of_cons in Hin as [[= -> ->]|?]; [|done].
           destruct Hk. congruence.
Qed.

Lemma scan_original_total items conf t diffs miss :
  (∀ k o c, (k, o) ∈ items → od_get k conf = Some c →
            ∃ d, compare_line k o c t = Ok d) →
  ∃ r, scan_original items conf t diffs miss = Ok r.
Proof.
  revert diffs miss. induction items as [|[k0 o0] items IH]; intros diffs miss H; simpl.
  - by eexists.
  - assert (∀ k o c, (k, o) ∈ items → od_get k conf = Some c →
                     ∃ d, compare_line k o c t = Ok d) as H'.
    { intros k o c Hin. apply H. by right. }
    destruct (od_get k0 conf) as [c0|] eqn:E; [|by apply IH].
    destruct (H k0 o0 c0) as [d ->]; [left|done|]. simpl.
    destruct (1 <? length d)%nat; by apply IH.
Qed.

End Loops.

(** ** The scenarios of the specification *)

Import Scenario.

(** C1.  In the end-to-end scenario with the line totals spelled [importo],
    as [parse_items] spells them, [compare_orders] reports for code 0001 the
    pair of unit prices only: it reads the totals under [totale_riga] alone,
    and reports their pair when they are spelled so. *)
Theorem end_to_end_importo_not_compared :
  compare_orders (e2e_original "importo") (e2e_confirmation "importo") default_tolerance =
    Ok {| differenze :=
            [[("codice", VStr "0001");
              ("prezzo_unitario", VTuple [VFloat 2; VFloat 2.5])]];
          righe_mancanti_nella_conferma := [VDict row_0002];
          righe_extra_nella_conferma := [VDict row_0003] |} ∧
  compare_orders (e2e_original "totale_riga") (e2e_confirmation "totale_riga")
      default_tolerance =
    Ok {| differenze :=
            [[("codice", VStr "0001");
              ("prezzo_unitario", VTuple [VFloat 2; VFloat 2.5]);
              ("totale_riga", VTuple [VFloat 10; VFloat 12.5])]];
          righe_mancanti_nella_conferma := [VDict row_0002];
          righe_extra_nella_conferma := [VDict row_0003] |}.
Proof. split; vm_compute; reflexivity. Qed.

(** C4.  In the unit-mismatch scenario with the default tolerance the record
    for code 0001 holds the pair of quantities (10, 1) and a note on the
    units of measure: the relative difference of the totals is 0.02, which
    is below 0.05. *)
Theorem unit_mismatch_scenario :
  compare_orders unit_original unit_confirmation default_tolerance =
    Ok {| differenze := [unit_record];
          righe_mancanti_nella_conferma := [];
          righe_extra_nella_conferma := [] |} ∧
  od_get "quantita" unit_record = Some (VTuple [VFloat 10; VFloat 1]) ∧
  od_get "nota" unit_record = Some (VList [VStr unit_note]) ∧
  PrimFloat.div (PrimFloat.abs (PrimFloat.sub 100 98)) 100 = 0.02%float ∧
  PrimFloat.ltb 0.02 default_tolerance = true.
Proof. split_and!; vm_compute; reflexivity. Qed.

(** ** Numbers *)

Lemma replace_dot_twice s :
  Str.replace "." "" (Str.replace "." "" s) = Str.replace "." "" s.
Proof.
  induction s as [|c s IH]; [done|]. cbn [Str.replace].
  destruct (Ascii.eqb c ".") eqn:E; cbn [String.append Str.replace]; [done|].
  by rewrite E, IH.
Qed.

(** C7.  Both numeric parsers drop every [.] and then read [,] as the
    decimal point, so that grouping by [.] leaves the value as it is; they
    agree on every string; and they read 1.234,56 as 1234.56 and 12,5 as
    12.5. *)
Theorem numeric_normalization :
  (∀ s, ParseOrders._parse_number s =
        PyFloat.of_string (Str.replace "," "." (Str.replace "." "" s))) ∧
  (∀ s, ParseOrders._parse_number (Str.replace "." "" s) =
        ParseOrders._parse_number s) ∧
  (∀ s, OrderCompare._parse_number (VStr s) =
        match ParseOrders._parse_number s with
        | Ok x => Ok (Some x)
        | Raise _ => Ok None
        end) ∧
  ParseOrders._parse_number "1.234,56" = Ok 1234.56%float ∧
  ParseOrders._parse_number "12,5" = Ok 12.5%float ∧
  OrderCompare._parse_number (VStr "1.234,56") = Ok (Some 1234.56%float) ∧
  OrderCompare._parse_number (VStr "12,5") = Ok (Some 12.5%float).
Proof.
  split_and!.
  - done.
  - intros s. unfold ParseOrders._parse_number. by rewrite replace_dot_twice.
  - intros s. unfold ParseOrders._parse_number. cbn [OrderCompare._parse_number].
    destruct (PyFloat.of_string _) as [x|e] eqn:E; [done|].
    by apply of_string_raises in E as ->.
  - vm_compute. reflexivity.
  - vm_compute. reflexivity.
  - vm_compute. reflexivity.
  - vm_compute. reflexivity.
Qed.

(** ** The report *)

(** What [compare_orders] computed on the way to its report. *)
Lemma compare_orders_inv o c t rep :
  compare_orders o c t = Ok rep →
  ∃ lo lc idx_o idx_c,
    py_iter (lines_of o) = Ok lo ∧ index_lines lo [] = Ok idx_o ∧
    py_iter (lines_of c) = Ok lc ∧ index_lines lc [] = Ok idx_c ∧
    build_index o = Ok idx_o ∧ build_index c = Ok idx_c ∧
    scan_original idx_o idx_c t [] [] =
      Ok (differenze rep, righe_mancanti_nella_conferma rep) ∧
    righe_extra_nella_conferma rep = scan_confirmation idx_c idx_o [].
Proof.
  unfold compare_orders.
  intros (idx_o & Ho & H)%bind_Ok. apply bind_Ok in H as (idx_c & Hc & H).
  apply bind_Ok in H as ([diffs miss] & Hs & [= <-]).
  pose proof Ho as Ho'. pose proof Hc as Hc'.
  apply bind_Ok in Ho' as (lo & Hlo & Hio). apply bind_Ok in Hc' as (lc & Hlc & Hic).
  by exists lo, lc, idx_o, idx_c.
Qed.

(** The lists of the report, read off the two indexes. *)
Lemma report_elems o c t rep idx_o idx_c :
  compare_orders o c t = Ok rep →
  build_index o = Ok idx_o → build_index c = Ok idx_c →
  (∀ v, v ∈ righe_mancanti_nella_conferma rep ↔
        ∃ k, (k, v) ∈ idx_o ∧ od_get k idx_c = None) ∧
  (∀ v, v ∈ righe_extra_nella_conferma rep ↔
        ∃ k, (k, v) ∈ idx_c ∧ od_get k idx_o = None) ∧
  (∀ d, d ∈ differenze rep ↔
        ∃ k ol cl, (k, ol) ∈ idx_o ∧ od_get k idx_c = Some cl ∧
                   compare_line k ol cl t = Ok d ∧ (1 < length d)%nat).
Proof.
  intros (lo & lc & io & ic & _ & _ & _ & _ & Ho & Hc & Hs & He)%compare_orders_inv Ho' Hc'.
  assert (io = idx_o) as -> by congruence. assert (ic = idx_c) as -> by congruence.
  apply scan_original_elem in Hs as [Hm Hd]. split_and!.
  - intros v. rewrite Hm. split; [intros [[]%elem_of_nil|?]|]; auto.
  - intros v. rewrite He, scan_confirmation_elem.
    split; [intros [[]%elem_of_nil|?]|]; auto.
  - intros d. rewrite Hd. split; [intros [[]%elem_of_nil|?]|]; auto.
Qed.

(** An indexed line is a line of the document and has the key it is indexed
    under; the keys of an index are distinct. *)
Lemma build_index_elem doc idx k v :
  build_index doc = Ok idx → (k, v) ∈ idx →
  line_key v = Ok (Some k) ∧ od_get k idx = Some v ∧
  ∃ lines, py_iter (lines_of doc) = Ok lines ∧ v ∈ lines.
Proof.
  intros (lines & Hl & Hi)%bind_Ok Hin.
  destruct (index_lines_elem _ _ _ _ _ Hi Hin) as [[]%elem_of_nil|[Hv Hk]].
  split_and!; [done| |by exists lines].
  apply od_get_NoDup; [|done].
  eapply index_lines_NoDup; [done|]. apply NoDup_nil_2.
Qed.

(** C9.  In every report, a discrepancy record with a [nota] also has a
    [quantita] pair, of two numbers that differ. *)
Theorem note_requires_quantity o c t rep d :
  compare_orders o c t = Ok rep →
  d ∈ differenze rep →
  od_mem "nota" d = true →
  ∃ x y, od_get "quantita" d = Some (VTuple [VFloat x; VFloat y]) ∧
         PrimFloat.eqb x y = false.
Proof.
  intros H Hd Hn.
  destruct (compare_orders_inv _ _ _ _ H) as (lo & lc & io & ic & _ & _ & _ & _ & Ho & Hc & _).
  destruct (report_elems _ _ _ _ _ _ H Ho Hc) as (_ & _ & Hdiff).
  apply Hdiff in Hd as (k & ol & cl & _ & _ & Hcmp & _).
  by eapply compare_line_nota.
Qed.

Lemma note_requires_quantity_witness :
  ∃ x y, od_get "quantita" unit_record = Some (VTuple [VFloat x; VFloat y]) ∧
         PrimFloat.eqb x y = false.
Proof.
  apply (note_requires_quantity unit_original unit_confirmation default_tolerance
           {| differenze := [unit_record];
              righe_mancanti_nella_conferma := [];
              righe_extra_nella_conferma := [] |} unit_record).
  - vm_compute. reflexivity.
  - left.
  - vm_compute. reflexivity.
Defined.

Section Report.
Context (o c : gmap string value) (t : float) (rep : report).
Context (idx_o idx_c : odict value).
Hypothesis Hrep : compare_orders o c t = Ok rep.
Hypothesis Ho : build_index o = Ok idx_o.
Hypothesis Hc : build_index c = Ok idx_c.

Lemma missing_code k :
  code_among k (righe_mancanti_nella_conferma rep) →
  is_Some (od_get k idx_o) ∧ od_get k idx_c = None.
Proof.
  intros (v & Hv & Hk).
  apply (report_elems _ _ _ _ _ _ Hrep Ho Hc) in Hv as (k' & Hin & Hnone).
  destruct (build_index_elem _ _ _ _ Ho Hin) as (Hk' & Hget & _).
  assert (k' = k) as -> by congruence. by rewrite Hget.
Qed.

Lemma extra_code k :
  code_among k (righe_extra_nella_conferma rep) →
  is_Some (od_get k idx_c) ∧ od_get k idx_o = None.
Proof.
  intros (v & Hv & Hk).
  apply (report_elems _ _ _ _ _ _ Hrep Ho Hc) in Hv as (k' & Hin & Hnone).
  destruct (build_index_elem _ _ _ _ Hc Hin) as (Hk' & Hget & _).
  assert (k' = k) as -> by congruence. by rewrite Hget.
Qed.

Lemma record_code k :
  code_among_records k (differenze rep) →
  is_Some (od_get k idx_o) ∧ is_Some (od_get k idx_c).
Proof.
  intros (d & Hd & Hk).
  apply (report_elems _ _ _ _ _ _ Hrep Ho Hc) in Hd as (k' & ol & cl & Hin & Hcl & Hcmp & _).
  apply compare_line_codice in Hcmp.
  assert (k' = k) as -> by congruence.
  destruct (build_index_elem _ _ _ _ Ho Hin) as (_ & Hget & _).
  by rewrite Hget, Hcl.
Qed.

End Report.

(** C8.  In every report, the items of the two lists of lines and the
    discrepancy records all have a code; a code of [righe_mancanti_nella_conferma]
    is not in the index of the confirmation, a code of
    [righe_extra_nella_conferma] is not in the index of the original, and no
    code occurs in two of the three lists. *)
Theorem symmetry_of_absence o c t rep idx_o idx_c :
  compare_orders o c t = Ok rep →
  build_index o = Ok idx_o →
  build_index c = Ok idx_c →
  (∀ v, v ∈ righe_mancanti_nella_conferma rep → ∃ k, line_key v = Ok (Some k)) ∧
  (∀ v, v ∈ righe_extra_nella_conferma rep → ∃ k, line_key v = Ok (Some k)) ∧
  (∀ d, d ∈ differenze rep → ∃ k, od_get "codice" d = Some (VStr k)) ∧
  (∀ k, code_among k (righe_mancanti_nella_conferma rep) → od_get k idx_c = None) ∧
  (∀ k, code_among k (righe_extra_nella_conferma rep) → od_get k idx_o = None) ∧
  (∀ k, ¬ (code_among k (righe_mancanti_nella_conferma rep) ∧
           code_among k (righe_extra_nella_conferma rep))) ∧
  (∀ k, ¬ (code_among k (righe_mancanti_nella_conferma rep) ∧
           code_among_records k (differenze rep))) ∧
  (∀ k, ¬ (code_among k (righe_extra_nella_conferma rep) ∧
           code_among_records k (differenze rep))).
Proof.
  intros H Ho Hc.
  pose proof (report_elems _ _ _ _ _ _ H Ho Hc) as (Hm & He & Hd).
  split_and!.
  - intros v (k & Hin & _)%Hm. exists k.
    by destruct (build_index_elem _ _ _ _ Ho Hin) as [? _].
  - intros v (k & Hin & _)%He. exists k.
    by destruct (build_index_elem _ _ _ _ Hc Hin) as [? _].
  - intros d (k & ol & cl & _ & _ & Hcmp & _)%Hd. exists k.
    by eapply compare_line_codice.
  - intros k Hk. by eapply missing_code.
  - intros k Hk. by eapply extra_code.
  - intros k [Hk1 Hk2].
    eapply missing_code in Hk1 as [[v Hv] _]; [|done..].
    eapply extra_code in Hk2 as [_ Hn]; [|done..]. congruence.
  - intros k [Hk1 Hk2].
    eapply missing_code in Hk1 as [_ Hn]; [|done..].
    eapply record_code in Hk2 as [_ [v Hv]]; [|done..]. congruence.
  - intros k [Hk1 Hk2].
    eapply extra_code in Hk1 as [_ Hn]; [|done..].
    eapply record_code in Hk2 as [[v Hv] _]; [|done..]. congruence.
Qed.

Lemma symmetry_of_absence_witness :
  od_get "0002" [("0001", VDict (row_0001 2.5 12.5 "totale_riga")); ("0003", VDict row_0003)]
    = None.
Proof.
  refine (proj1 (proj2 (proj2 (proj2
    (symmetry_of_absence (e2e_original "totale_riga") (e2e_confirmation "totale_riga")
       default_tolerance
       {| differenze :=
            [[("codice", VStr "0001");
              ("prezzo_unitario", VTuple [VFloat 2; VFloat 2.5]);
              ("totale_riga", VTuple [VFloat 10; VFloat 12.5])]];
          righe_mancanti_nella_conferma := [VDict row_0002];
          righe_extra_nella_conferma := [VDict row_0003] |}
       [("0001", VDict (row_0001 2.0 10.0 "totale_riga")); ("0002", VDict row_0002)]
       [("0001", VDict (row_0001 2.5 12.5 "totale_riga")); ("0003", VDict row_0003)]
       _ _ _)))) "0002" _).
  - vm_compute. reflexivity.
  - vm_compute. reflexivity.
  - vm_compute. reflexivity.
  - exists (VDict row_0002). split; [left|]. vm_compute. reflexivity.
Defined.

(** ** Duplicate codes *)

Lemma last_with_code_app k l1 l2 :
  last_with_code k (l1 ++ l2) =
    match last_with_code k l2 with
    | Some v => Some v
    | None => last_with_code k l1
    end.
Proof.
  induction l1 as [|x l1 IH]; simpl.
  - by destruct (last_with_code k l2).
  - rewrite IH. by destruct (last_with_code k l2).
Qed.

Lemma last_with_code_none k lines :
  Forall (λ x, has_code k x = false) lines → last_with_code k lines = None.
Proof. induction 1 as [|x l Hx _ IH]; simpl; [done|]. by rewrite IH, Hx. Qed.

Lemma last_with_code_key k lines v :
  last_with_code k lines = Some v → line_key v = Ok (Some k).
Proof.
  induction lines as [|x l IH]; simpl; [done|].
  destruct (last_with_code k l); [by intros [= ->]; auto|].
  unfold has_code. destruct (line_key x) as [[k'|]|] eqn:E; try done.
  destruct (String.eqb_spec k k') as [->|]; [|done]. by intros [= <-].
Qed.

Lemma build_index_get doc lines idx k :
  py_iter (lines_of doc) = Ok lines → build_index doc = Ok idx →
  od_get k idx = last_with_code k lines.
Proof.
  intros Hl (lines' & Hl' & Hi)%bind_Ok.
  assert (lines' = lines) as -> by congruence.
  rewrite (index_lines_get _ _ _ k Hi). by destruct (last_with_code k lines).
Qed.

(** The key under which the comprehension files a line is the trimmed code
    of the record. *)
Lemma line_key_code line ko : line_key line = Ok ko → trimmed_code line = ko.
Proof.
  unfold line_key, trimmed_code. destruct line as [| | | | | | |d]; try done.
  cbn [py_get raw_code mbind result_bind].
  destruct (dict_get "codice" d) as [|b|z|x|s|l|l|m] eqn:E; cbn [is_none];
    [by intros [= <-]|..];
    unfold py_or;
    match goal with |- context [truthy ?v] => destruct (truthy v) eqn:Ht end;
    cbn [py_strip mbind result_bind]; try done; try by intros [= <-].
  intros [= <-]. cbn [truthy] in Ht. apply negb_false_iff in Ht.
  by apply String.eqb_eq in Ht as ->.
Qed.

Lemma index_lines_codes lines d idx :
  index_lines lines d = Ok idx →
  Forall (λ x, line_key x = Ok (trimmed_code x)) lines.
Proof.
  revert d. induction lines as [|x lines IH]; intros d; [constructor|].
  cbn [index_lines]. intros (ko & Hk & H)%bind_Ok. constructor.
  - by rewrite (line_key_code _ _ Hk).
  - destruct ko; by eapply IH.
Qed.

Lemma has_code_code k x :
  line_key x = Ok (trimmed_code x) →
  (has_code k x = true ↔ trimmed_code x = Some k) ∧
  (has_code k x = false ↔ trimmed_code x ≠ Some k).
Proof.
  intros Hx. unfold has_code. rewrite Hx. destruct (trimmed_code x) as [k'|].
  - destruct (String.eqb_spec k k') as [->|Hne]; split; split; try done; congruence.
  - split; split; done.
Qed.

Lemma last_with_code_None k lines :
  last_with_code k lines = None → Forall (λ x, has_code k x = false) lines.
Proof.
  induction lines as [|x lines IH]; [constructor|]. cbn [last_with_code].
  destruct (last_with_code k lines); [done|].
  destruct (has_code k x) eqn:E; [done|]. intros _. constructor; auto.
Qed.

Lemma last_with_code_split k lines v :
  last_with_code k lines = Some v →
  ∃ pre post, lines = (pre ++ v :: post)%list ∧ has_code k v = true ∧
              Forall (λ x, has_code k x = false) post.
Proof.
  induction lines as [|x lines IH]; [done|]. cbn [last_with_code].
  destruct (last_with_code k lines) as [later|] eqn:E.
  - intros [= ->]. destruct IH as (pre & post & -> & Hv & Hpost); [done|].
    by exists (x :: pre), post.
  - destruct (has_code k x) eqn:Hx; [|done]. intros [= <-].
    exists [], lines. split_and!; [done..|]. by apply last_with_code_None.
Qed.

(** An index holds, under each code, the last record whose trimmed code it
    is. *)
Lemma build_index_last doc lines idx k v :
  py_iter (lines_of doc) = Ok lines → build_index doc = Ok idx →
  od_get k idx = Some v ↔ last_of_code k lines v.
Proof.
  intros Hl Hidx. rewrite (build_index_get _ _ _ k Hl Hidx).
  apply bind_Ok in Hidx as (lines' & Hl' & Hi).
  assert (lines' = lines) as -> by congruence.
  pose proof (index_lines_codes _ _ _ Hi) as Hall. split.
  - intros (pre & post & -> & Hv & Hpost)%last_with_code_split.
    exists pre, post. apply Forall_app in Hall as [_ [Hkv Hkpost]%Forall_cons].
    split_and!; [done|by apply (has_code_code k v Hkv)|].
    apply Forall_forall. intros x Hx. rewrite Forall_forall in Hkpost, Hpost.
    apply (has_code_code k x (Hkpost x Hx)). auto.
  - intros (pre & post & -> & Hv & Hpost).
    apply Forall_app in Hall as [_ [Hkv Hkpost]%Forall_cons].
    rewrite last_with_code_app. cbn [last_with_code].
    rewrite last_with_code_none.
    + by rewrite (proj2 (proj1 (has_code_code k v Hkv)) Hv).
    + apply Forall_forall. intros x Hx. rewrite Forall_forall in Hkpost, Hpost.
      apply (has_code_code k x (Hkpost x Hx)). auto.
Qed.

Lemma two_sharing_last k lines a b : two_sharing k lines a b → last_of_code k lines b.
Proof.
  intros (pre & mid & post & -> & _ & Hb & Hpost).
  exists (pre ++ a :: mid)%list, post. by rewrite <- app_assoc.
Qed.

(** C6.  The trimmed code of a record is read off the record: the string
    under codice without the white space at its ends.  The index of each
    side holds a record under a code exactly when it is the last record of
    the sequence with that trimmed code.  So where two records share a
    trimmed code, the later one is the value under that code, and the
    earlier one, when it is another record, is not in the list of lines of
    its side.  Every line in the two lists of lines of the report is the
    last record with its trimmed code, and every discrepancy record compares
    two such last records. *)
Theorem last_write_wins o c t rep :
  compare_orders o c t = Ok rep →
  ∃ lo lc idx_o idx_c,
    py_iter (lines_of o) = Ok lo ∧ py_iter (lines_of c) = Ok lc ∧
    build_index o = Ok idx_o ∧ build_index c = Ok idx_c ∧
    (∀ k v, od_get k idx_o = Some v ↔ last_of_code k lo v) ∧
    (∀ k v, od_get k idx_c = Some v ↔ last_of_code k lc v) ∧
    (∀ k a b, two_sharing k lo a b →
              od_get k idx_o = Some b ∧
              (a ≠ b → ((k, a) ∉ idx_o) ∧ (a ∉ righe_mancanti_nella_conferma rep))) ∧
    (∀ k a b, two_sharing k lc a b →
              od_get k idx_c = Some b ∧
              (a ≠ b → ((k, a) ∉ idx_c) ∧ (a ∉ righe_extra_nella_conferma rep))) ∧
    (∀ v, v ∈ righe_mancanti_nella_conferma rep → ∃ k, last_of_code k lo v) ∧
    (∀ v, v ∈ righe_extra_nella_conferma rep → ∃ k, last_of_code k lc v) ∧
    (∀ d, d ∈ differenze rep →
          ∃ k ol cl, last_of_code k lo ol ∧ last_of_code k lc cl ∧
                     compare_line k ol cl t = Ok d).
Proof.
  intros H.
  destruct (compare_orders_inv _ _ _ _ H)
    as (lo & lc & idx_o & idx_c & Hlo & _ & Hlc & _ & Ho & Hc & _).
  pose proof (report_elems _ _ _ _ _ _ H Ho Hc) as (Hm & He & Hd).
  assert (∀ k v, od_get k idx_o = Some v ↔ last_of_code k lo v) as Hgo
    by (intros k v; by eapply build_index_last).
  assert (∀ k v, od_get k idx_c = Some v ↔ last_of_code k lc v) as Hgc
    by (intros k v; by eapply build_index_last).
  assert (∀ doc idx k k' a b,
            build_index doc = Ok idx → od_get k idx = Some b →
            trimmed_code a = Some k → a ≠ b → (k', a) ∈ idx → False) as Hone.
  { intros doc idx k k' a b Hidx Hb Ha Hab Hin.
    destruct (build_index_elem _ _ _ _ Hidx Hin) as (Hk & Hget & _).
    apply line_key_code in Hk. assert (k' = k) as -> by congruence. congruence. }
  exists lo, lc, idx_o, idx_c. split_and!; try done.
  - intros k a b Hab. pose proof Hab as (pre & mid & post & _ & Ha & _).
    assert (od_get k idx_o = Some b) as Hb by (by apply Hgo, (two_sharing_last k lo a)).
    split; [done|]. intros Hne. split.
    + intros Hin. by apply (Hone o idx_o k k a b).
    + intros (k' & Hin & _)%Hm. by apply (Hone o idx_o k k' a b).
  - intros k a b Hab. pose proof Hab as (pre & mid & post & _ & Ha & _).
    assert (od_get k idx_c = Some b) as Hb by (by apply Hgc, (two_sharing_last k lc a)).
    split; [done|]. intros Hne. split.
    + intros Hin. by apply (Hone c idx_c k k a b).
    + intros (k' & Hin & _)%He. by apply (Hone c idx_c k k' a b).
  - intros v (k & Hin & _)%Hm. exists k. apply Hgo.
    by destruct (build_index_elem _ _ _ _ Ho Hin) as (_ & ? & _).
  - intros v (k & Hin & _)%He. exists k. apply Hgc.
    by destruct (build_index_elem _ _ _ _ Hc Hin) as (_ & ? & _).
  - intros d (k & ol & cl & Hin & Hcl & Hcmp & _)%Hd. exists k, ol, cl.
    split_and!; [|by apply Hgc|done]. apply Hgo.
    by destruct (build_index_elem _ _ _ _ Ho Hin) as (_ & ? & _).
Qed.

Lemma last_write_wins_witness :
  ∃ lo lc idx_o idx_c,
    py_iter (lines_of (document [first_0007; second_0007])) = Ok lo ∧
    py_iter (lines_of (document [])) = Ok lc ∧
    build_index (document [first_0007; second_0007]) = Ok idx_o ∧
    build_index (document []) = Ok idx_c ∧
    (∀ k v, od_get k idx_o = Some v ↔ last_of_code k lo v) ∧
    (∀ k v, od_get k idx_c = Some v ↔ last_of_code k lc v) ∧
    (∀ k a b, two_sharing k lo a b →
              od_get k idx_o = Some b ∧
              (a ≠ b → ((k, a) ∉ idx_o) ∧ (a ∉ [VDict second_0007]))) ∧
    (∀ k a b, two_sharing k lc a b →
              od_get k idx_c = Some b ∧
              (a ≠ b → ((k, a) ∉ idx_c) ∧ (a ∉ []))) ∧
    (∀ v, v ∈ [VDict second_0007] → ∃ k, last_of_code k lo v) ∧
    (∀ v, v ∈ [] → ∃ k, last_of_code k lc v) ∧
    (∀ d, d ∈ [] →
          ∃ k ol cl, last_of_code k lo ol ∧ last_of_code k lc cl ∧
                     compare_line k ol cl default_tolerance = Ok d).
Proof.
  apply (last_write_wins (document [first_0007; second_0007]) (document [])
           default_tolerance
           {| differenze := [];
              righe_mancanti_nella_conferma := [VDict second_0007];
              righe_extra_nella_conferma := [] |}).
  vm_compute. reflexivity.
Defined.

(** ** Records without a code *)

Lemma no_code_key line : no_code line → line_key line = Ok None.
Proof. intros (d & -> & Hd). unfold line_key. simpl. by rewrite Hd. Qed.

(** C2, as the code has it.  A record whose [codice] is absent or [None] is
    in neither index and in neither list of lines of the report, and no
    discrepancy record is computed from it. *)
Theorem absent_code_excluded o c t rep line :
  compare_orders o c t = Ok rep →
  no_code line →
  ∃ idx_o idx_c,
    build_index o = Ok idx_o ∧ build_index c = Ok idx_c ∧
    (∀ k, (k, line) ∉ idx_o) ∧ (∀ k, (k, line) ∉ idx_c) ∧
    (line ∉ righe_mancanti_nella_conferma rep) ∧
    (line ∉ righe_extra_nella_conferma rep) ∧
    (∀ d, d ∈ differenze rep →
          ∃ k ol cl, od_get k idx_o = Some ol ∧ od_get k idx_c = Some cl ∧
                     ol ≠ line ∧ cl ≠ line ∧
                     compare_line k ol cl t = Ok d).
Proof.
  intros H Hline.
  destruct (compare_orders_inv _ _ _ _ H)
    as (lo & lc & idx_o & idx_c & _ & _ & _ & _ & Ho & Hc & _).
  pose proof (report_elems _ _ _ _ _ _ H Ho Hc) as (Hm & He & Hd).
  apply no_code_key in Hline.
  assert (∀ idx doc k, build_index doc = Ok idx → (k, line) ∉ idx) as Hnot.
  { intros idx doc k Hidx Hin.
    destruct (build_index_elem _ _ _ _ Hidx Hin) as (Hk & _). congruence. }
  assert (∀ idx doc k v, build_index doc = Ok idx → od_get k idx = Some v → v ≠ line)
    as Hne.
  { intros idx doc k v Hidx Hget ->. apply (Hnot idx doc k Hidx). by apply od_get_elem. }
  exists idx_o, idx_c. split_and!; eauto.
  - intros (k & Hin & _)%Hm. by apply (Hnot idx_o o k Ho).
  - intros (k & Hin & _)%He. by apply (Hnot idx_c c k Hc).
  - intros d (k & ol & cl & Hin & Hcl & Hcmp & _)%Hd. exists k, ol, cl.
    destruct (build_index_elem _ _ _ _ Ho Hin) as (_ & Hol & _).
    split_and!; eauto.
Qed.

Lemma absent_code_excluded_witness :
  ∃ idx_o idx_c,
    build_index (document [no_code_row; row_0002]) = Ok idx_o ∧
    build_index (document []) = Ok idx_c ∧
    (∀ k, (k, VDict no_code_row) ∉ idx_o) ∧ (∀ k, (k, VDict no_code_row) ∉ idx_c) ∧
    (VDict no_code_row ∉ [VDict row_0002]) ∧
    (VDict no_code_row ∉ []) ∧
    (∀ d, d ∈ [] →
          ∃ k ol cl, od_get k idx_o = Some ol ∧ od_get k idx_c = Some cl ∧
                     ol ≠ VDict no_code_row ∧ cl ≠ VDict no_code_row ∧
                     compare_line k ol cl default_tolerance = Ok d).
Proof.
  apply (absent_code_excluded (document [no_code_row; row_0002]) (document [])
           default_tolerance
           {| differenze := [];
              righe_mancanti_nella_conferma := [VDict row_0002];
              righe_extra_nella_conferma := [] |}
           (VDict no_code_row)).
  - vm_compute. reflexivity.
  - exists no_code_row. split; vm_compute; reflexivity.
Defined.

(** C2, as the claim has it, fails: a record with an empty code, or with a
    code of blanks only, is indexed under the empty key and reported as
    missing in the confirmation. *)
Lemma empty_code_is_indexed :
  build_index (document [empty_code_row]) = Ok [("", VDict empty_code_row)] ∧
  build_index (document [blank_code_row]) = Ok [("", VDict blank_code_row)] ∧
  righe_mancanti_nella_conferma <$>
    compare_orders (document [empty_code_row]) (document []) default_tolerance =
    Ok [VDict empty_code_row] ∧
  righe_mancanti_nella_conferma <$>
    compare_orders (document [blank_code_row]) (document []) default_tolerance =
    Ok [VDict blank_code_row].
Proof. split_and!; vm_compute; reflexivity. Qed.

(** ** When [compare_orders] returns *)

Lemma record_ok_key line : record_ok line → ∃ ko, line_key line = Ok ko.
Proof.
  intros (d & -> & Hcode & _). unfold line_key, py_get. cbn [mbind result_bind].
  destruct Hcode as [->|[[s ->]|Hf]].
  - by eexists.
  - unfold py_or. destruct (truthy (VStr s)); by eexists.
  - destruct (is_none (dict_get "codice" d)); [by eexists|].
    unfold py_or. rewrite Hf. by eexists.
Qed.

Lemma record_ok_field line f :
  record_ok line → f ∈ numeric_fields →
  ∃ r, py_get line f ≫= _parse_number = Ok r.
Proof.
  intros (d & -> & _ & Hnum) Hf. cbn [py_get mbind result_bind].
  apply parse_number_total. by apply Hnum.
Qed.

Lemma righe_ok_lines doc :
  righe_ok doc →
  ∃ lines, py_iter (lines_of doc) = Ok lines ∧ Forall record_ok lines.
Proof.
  unfold righe_ok, lines_of. destruct (doc !! "righe") as [v|]; simpl.
  - intros [Hf|(lines & -> & Hl)].
    + unfold py_or. rewrite Hf. by exists [].
    + destruct lines; [by exists []|]. by eexists.
  - intros _. by exists [].
Qed.

(** C3, as the code has it.  [compare_orders] returns a report for every two
    documents whose [righe] are missing, false, or a list of records in which
    [codice] is absent, [None], a string or an object that counts as false,
    and no number is an integer beyond the range of binary64; missing [righe]
    give an empty index, as an empty list does. *)
Theorem compare_orders_returns o c t :
  righe_ok o → righe_ok c →
  (∃ rep, compare_orders o c t = Ok rep) ∧
  (o !! "righe" = None → build_index o = Ok []) ∧
  (c !! "righe" = None → build_index c = Ok []).
Proof.
  intros Hoko Hokc.
  split_and!; [|by unfold build_index, lines_of; intros ->..].
  revert Hoko Hokc.
  intros (lo & Hlo & Hfo)%righe_ok_lines (lc & Hlc & Hfc)%righe_ok_lines.
  destruct (index_lines_total lo []) as [idx_o Hio].
  { eapply Forall_impl; [done|]. apply record_ok_key. }
  destruct (index_lines_total lc []) as [idx_c Hic].
  { eapply Forall_impl; [done|]. apply record_ok_key. }
  destruct (scan_original_total idx_o idx_c t [] []) as [[diffs miss] Hs].
  { intros k ol cl Hol Hcl%od_get_elem.
    destruct (index_lines_elem _ _ _ _ _ Hio Hol) as [[]%elem_of_nil|[Hol' _]].
    destruct (index_lines_elem _ _ _ _ _ Hic Hcl) as [[]%elem_of_nil|[Hcl' _]].
    rewrite Forall_forall in Hfo, Hfc.
    apply compare_line_total. intros f Hf. split; apply record_ok_field; auto. }
  unfold compare_orders, build_index. rewrite Hlo, Hlc. cbn [mbind result_bind].
  rewrite Hio, Hic. cbn [mbind result_bind]. rewrite Hs. by eexists.
Qed.

Lemma compare_orders_returns_witness :
  (∃ rep, compare_orders (document [no_code_row; empty_code_row; row_0002]) ∅
            default_tolerance = Ok rep) ∧
  (document [no_code_row; empty_code_row; row_0002] !! "righe" = None →
   build_index (document [no_code_row; empty_code_row; row_0002]) = Ok []) ∧
  ((∅ : gmap string value) !! "righe" = None → build_index ∅ = Ok []).
Proof.
  apply (compare_orders_returns (document [no_code_row; empty_code_row; row_0002]) ∅
           default_tolerance).
  - right. eexists. split; [vm_compute; reflexivity|].
    repeat constructor;
      (eexists; split; [reflexivity|]; split;
       [ first [ by left | right; left; by eexists ]
       | intros f Hf z Hz;
         repeat (apply elem_of_cons in Hf as [->|Hf]);
         try (by apply elem_of_nil in Hf);
         vm_compute in Hz; try discriminate;
         injection Hz as <-; eexists; vm_compute; reflexivity ]).
  - exact I.
Defined.

(** C3, as the claim has it, fails: a record whose code is a number makes
    [compare_orders] raise, and so does an integer beyond the range of
    binary64 on a line present on both sides. *)
Lemma number_code_raises :
  compare_orders (document [number_code_row]) (document []) default_tolerance =
    Raise AttributeError ∧
  compare_orders
    (document [ {[ "codice" := VStr "0001"; "quantita" := VInt (10 ^ 400) ]} ])
    (document [ {[ "codice" := VStr "0001"; "quantita" := VInt 1 ]} ])
    default_tolerance = Raise OverflowError.
Proof. split; vm_compute; reflexivity. Qed.

(** ** A document compared with itself *)

Lemma compare_line_self k d t :
  (∀ f, f ∈ numeric_fields → clean_number (dict_get f d)) →
  compare_line k (VDict d) (VDict d) t = Ok [("codice", VStr k)].
Proof.
  intros H.
  destruct (H "quantita") as (q & Hq & Hqn); [repeat constructor|].
  destruct (H "prezzo_unitario") as (p & Hp & Hpn); [repeat constructor|].
  destruct (H "totale_riga") as (r & Hr & Hrn); [repeat constructor|].
  unfold compare_line. cbn [py_get mbind result_bind].
  rewrite Hq, Hp, Hr. cbn [mbind result_bind]. cbv zeta.
  by rewrite !differ_same.
Qed.

Lemma scan_original_self items idx t diffs miss :
  (∀ k v, (k, v) ∈ items →
          od_get k idx = Some v ∧ compare_line k v v t = Ok [("codice", VStr k)]) →
  scan_original items idx t diffs miss = Ok (diffs, miss).
Proof.
  induction items as [|[k v] items IH]; intros H; simpl; [done|].
  destruct (H k v) as [-> ->]; [left|]. simpl.
  apply IH. intros k' v' Hin. apply H. by right.
Qed.

Lemma scan_confirmation_self items idx extra :
  (∀ k v, (k, v) ∈ items → od_get k idx = Some v) →
  scan_confirmation items idx extra = extra.
Proof.
  induction items as [|[k v] items IH]; intros H; simpl; [done|].
  unfold od_mem. rewrite (H k v); [|left].
  apply IH. intros k' v' Hin. apply H. by right.
Qed.

Lemma clean_record_key line : clean_record line → ∃ ko, line_key line = Ok ko.
Proof.
  intros (d & s & -> & Hc & _). unfold line_key, py_get. cbn [mbind result_bind].
  rewrite Hc. unfold py_or. destruct (truthy (VStr s)); by eexists.
Qed.

(** C5, as the code has it.  A document whose records have pairwise
    distinct, non-empty strings as codes, and numbers that are not NaN,
    compared with itself under any tolerance gives a report with three empty
    lists.  (The proof does not use that the codes are distinct.) *)
Theorem compare_with_itself A lines t :
  A !! "righe" = Some (VList lines) →
  Forall clean_record lines →
  NoDup (raw_code <$> lines) →
  compare_orders A A t =
    Ok {| differenze := [];
          righe_mancanti_nella_conferma := [];
          righe_extra_nella_conferma := [] |}.
Proof.
  intros Hr Hclean _.
  assert (py_iter (lines_of A) = Ok lines) as Hl.
  { unfold lines_of. rewrite Hr. simpl. by destruct lines. }
  destruct (index_lines_total lines []) as [idx Hi].
  { eapply Forall_impl; [done|]. apply clean_record_key. }
  assert (build_index A = Ok idx) as Hidx.
  { unfold build_index. by rewrite Hl. }
  assert (∀ k v, (k, v) ∈ idx →
            od_get k idx = Some v ∧ compare_line k v v t = Ok [("codice", VStr k)])
    as Hself.
  { intros k v Hin.
    destruct (build_index_elem _ _ _ _ Hidx Hin) as (_ & Hget & lines' & Hl' & Hv).
    assert (lines' = lines) as -> by congruence.
    split; [done|]. rewrite Forall_forall in Hclean.
    destruct (Hclean v Hv) as (d & s & -> & _ & _ & Hnum).
    by apply compare_line_self. }
  unfold compare_orders. rewrite Hidx. cbn [mbind result_bind].
  rewrite (scan_original_self idx idx t [] []) by done. cbn [mbind result_bind].
  rewrite scan_confirmation_self; [done|]. intros k v Hin. by apply Hself.
Qed.

Lemma compare_with_itself_witness :
  compare_orders (e2e_original "totale_riga") (e2e_original "totale_riga") 0.5%float =
    Ok {| differenze := [];
          righe_mancanti_nella_conferma := [];
          righe_extra_nella_conferma := [] |}.
Proof.
  apply (compare_with_itself (e2e_original "totale_riga")
           [VDict (row_0001 2.0 10.0 "totale_riga"); VDict row_0002] 0.5%float).
  - vm_compute. reflexivity.
  - repeat constructor;
      (eexists _, _; split; [reflexivity|]; split; [vm_compute; reflexivity|];
       split; [discriminate|];
       intros f Hf; repeat (apply elem_of_cons in Hf as [->|Hf]);
       try (by apply elem_of_nil in Hf);
       (eexists; split; [vm_compute; reflexivity|]);
       first [ discriminate
             | intros [= E]; apply (f_equal PrimFloat.is_nan) in E;
               vm_compute in E; discriminate ]).
  - vm_compute. repeat constructor.
    + rewrite list_elem_of_singleton. discriminate.
    + apply not_elem_of_nil.
Defined.

(** C5, as the claim has it, fails: a record whose quantity is the text
    [nan] differs from itself. *)
Lemma nan_differs_from_itself :
  compare_orders (document [nan_row]) (document [nan_row]) default_tolerance =
    Ok {| differenze :=
            [[("codice", VStr "0001");
              ("quantita", VTuple [VFloat nan; VFloat nan])]];
          righe_mancanti_nella_conferma := [];
          righe_extra_nella_conferma := [] |}.
Proof. vm_compute. reflexivity. Qed.

(** ** The table extractor *)

Section Extractor.
Import ParseOrders.

Lemma item_ok (l : list string) i :
  (i < length l)%nat → ∃ x, item l i = Ok x.
Proof.
  intros [x Hx]%lookup_lt_is_Some. exists x. unfold item. by rewrite Hx.
Qed.

Lemma item_from_end_ok (l : list string) i :
  (0 < i ≤ length l)%nat → ∃ x, item_from_end l i = Ok x.
Proof.
  intros [Hi Hl]. unfold item_from_end.
  destruct (Nat.ltb_spec (length l) i); [lia|]. apply item_ok. lia.
Qed.

Lemma parse_row_numeric stripped :
  ∃ r, parse_row stripped = Ok r ∧ ∀ it, r = Some it → numeric_record it.
Proof.
  unfold parse_row. set (parts := Str.split_ws stripped).
  destruct (Nat.ltb_spec (length parts) 8) as [|Hlen]; [by eexists|].
  destruct (item_ok parts 0) as [code ->]; [lia|].
  destruct (item_ok parts 1) as [supplier ->]; [lia|].
  cbn [mbind result_bind].
  assert (length (drop 2 parts) = length parts - 2)%nat as Hdrop
    by apply length_drop.
  destruct (Nat.ltb_spec (length (drop 2 parts)) 6) as [|Hrem]; [by eexists|].
  destruct (item_from_end_ok (drop 2 parts) 6) as [um ->]; [lia|].
  destruct (item_from_end_ok (drop 2 parts) 5) as [tq ->]; [lia|].
  destruct (item_from_end_ok (drop 2 parts) 4) as [tp ->]; [lia|].
  destruct (item_from_end_ok (drop 2 parts) 3) as [td ->]; [lia|].
  destruct (item_from_end_ok (drop 2 parts) 2) as [ti ->]; [lia|].
  destruct (item_from_end_ok (drop 2 parts) 1) as [tv ->]; [lia|].
  cbn [mbind result_bind].
  destruct (_parse_number tq) as [q|e] eqn:Eq;
    [|apply of_string_raises in Eq as ->; by eexists].
  cbn [mbind result_bind].
  destruct (_parse_number tp) as [p|e] eqn:Ep;
    [|apply of_string_raises in Ep as ->; by eexists].
  cbn [mbind result_bind].
  destruct (_parse_number ti) as [i|e] eqn:Ei;
    [|apply of_string_raises in Ei as ->; by eexists].
  cbn [mbind result_bind]. eexists. split; [done|].
  intros it [= <-]. eexists. split; [done|].
  split_and!; [exists tq, q|exists tp, p|exists ti, i]; by split.
Qed.

Lemma scan_lines_numeric lines started items :
  Forall numeric_record items →
  ∃ items', scan_lines lines started items = Ok items' ∧
            Forall numeric_record items'.
Proof.
  revert started items.
  induction lines as [|line lines IH]; intros started items Hitems;
    cbn [scan_lines]; [by eexists|].
  repeat case_match; eauto.
  destruct (parse_row_numeric (Str.strip line)) as (r & -> & Hr).
  cbn [mbind result_bind]. destruct r as [it|]; [|by apply IH].
  apply IH. apply Forall_app. split; [done|]. by repeat constructor; apply Hr.
Qed.

End Extractor.

(** C10.  When the conversion step gives a text, [parse_items] returns, and
    each record it returns holds under [quantita], [prezzo_unitario] and
    [importo] the number that a token of its row parsed to. *)
Theorem parse_items_numeric_fields pdftotext pdf_path raw_text :
  pdftotext pdf_path = Ok raw_text →
  ∃ items, ParseOrders.parse_items pdftotext pdf_path = Ok items ∧
           ∀ r, r ∈ items → numeric_record r.
Proof.
  intros H. unfold ParseOrders.parse_items. rewrite H. cbn [mbind result_bind].
  destruct (scan_lines_numeric (Str.split "010" raw_text) false []) as (items & -> & Hi);
    [constructor|].
  exists items. split; [done|]. by apply Forall_forall.
Qed.

Lemma parse_items_numeric_fields_witness :
  ∃ items, ParseOrders.parse_items (λ _, Ok order_text) "ordine.pdf" = Ok items ∧
           ∀ r, r ∈ items → numeric_record r.
Proof.
  apply (parse_items_numeric_fields (λ _, Ok order_text) "ordine.pdf" order_text).
  reflexivity.
Defined.

(** The extraction of the sample text: two records, the row with a price
    that is not a number being left out. *)
Example parse_items_order_text :
  ParseOrders.parse_items (λ _, Ok order_text) "ordine.pdf" =
    Ok [VDict extracted_0001; VDict extracted_0002].
Proof. vm_compute. reflexivity. Qed.

(** ** The built-in functions on samples *)

Example strip_sample : Str.strip "  0001  AB12 " = "0001  AB12".
Proof. reflexivity. Qed.

Example split_ws_sample :
  Str.split_ws "0002  CD34 PZ   3" = ["0002"; "CD34"; "PZ"; "3"].
Proof. reflexivity. Qed.

Example row_pattern_samples :
  ParseOrders.row_pattern "0001 AB12" = true ∧
  ParseOrders.row_pattern "0001" = true ∧
  ParseOrders.row_pattern "00012 AB12" = false ∧
  ParseOrders.row_pattern "0001a" = false ∧
  ParseOrders.row_pattern "0001-2" = true ∧
  ParseOrders.row_pattern "001 AB12" = false.
Proof. split_and!; reflexivity. Qed.

Example float_of_string_samples :
  PyFloat.of_string "0.1" = Ok 0.1%float ∧
  PyFloat.of_string " 1_000.5 " = Ok 1000.5%float ∧
  PyFloat.of_string "1e3" = Ok 1000%float ∧
  PyFloat.of_string "-.5E-1" = Ok (-0.05)%float ∧
  PyFloat.of_string "9007199254740993" = Ok 9007199254740992%float ∧
  PyFloat.of_string "2.5e-324" = Ok 5e-324%float ∧
  PyFloat.of_string "1e400" = Ok infinity ∧
  PyFloat.of_string "-Infinity" = Ok neg_infinity ∧
  PyFloat.of_string "NaN" = Ok nan ∧
  PyFloat.of_string "" = Raise ValueError ∧
  PyFloat.of_string "1,5" = Raise ValueError ∧
  PyFloat.of_string "1e" = Raise ValueError ∧
  PyFloat.of_string "1__0" = Raise ValueError ∧
  PyFloat.of_string "n.d" = Raise ValueError.
Proof. split_and!; vm_compute; reflexivity. Qed.

Example float_of_int_samples :
  PyFloat.of_int 5 = Ok 5%float ∧
  PyFloat.of_int (-9007199254740993) = Ok (-9007199254740992)%float ∧
  PyFloat.of_int (2 ^ 1024 - 2 ^ 970 - 1) = Ok 0x1.fffffffffffffp+1023%float ∧
  PyFloat.of_int (2 ^ 1024 - 2 ^ 970) = Raise OverflowError.
Proof. split_and!; vm_compute; reflexivity. Qed.

(** Two records that share a trimmed code, on a sample. *)
Example two_sharing_sample :
  two_sharing "0007" [VDict first_0007; VDict row_0002; VDict second_0007]
    (VDict first_0007) (VDict second_0007).
Proof.
  exists [], [VDict row_0002], [].
  split_and!; [reflexivity|vm_compute; reflexivity..|constructor].
Qed.

(** * Further properties *)

Lemma od_mem_elem {V} (k : string) (d : odict V) : od_mem k d = true ↔ k ∈ d.*1.
Proof.
  unfold od_mem. destruct (od_get k d) eqn:E.
  - split; [intros _|done]. apply od_get_elem in E.
    apply list_elem_of_fmap. by exists (k, v).
  - split; [done|]. by apply od_get_None in E.
Qed.

Lemma filter_ne_absent (k : string) (seen l : list string) :
  k ∈ seen →
  filter (λ x, x ∉ seen) (filter (λ x, x ≠ k) l) = filter (λ x, x ∉ seen) l.
Proof.
  intros Hk. rewrite list_filter_filter. apply list_filter_iff.
  intros x. split; [tauto|]. intros Hx. split; [done|]. by intros ->.
Qed.

Lemma filter_absent_snoc (k : string) (seen l : list string) :
  filter (λ x, x ∉ (seen ++ [k])%list) l = filter (λ x, x ∉ seen) (filter (λ x, x ≠ k) l).
Proof.
  rewrite list_filter_filter. apply list_filter_iff.
  intros x. rewrite not_elem_of_app, list_elem_of_singleton. tauto.
Qed.

Lemma index_lines_keys lines (d idx : odict value) :
  index_lines lines d = Ok idx →
  idx.*1 = (d.*1 ++ filter (λ k, k ∉ d.*1) (first_occurrences (line_codes lines)))%list.
Proof.
  revert d. induction lines as [|line lines IH]; intros d H.
  - injection H as ->. simpl. by rewrite app_nil_r.
  - apply index_lines_cons in H as [[Hk H]|(code & Hk & H)].
    + rewrite (IH _ H). unfold line_codes. cbn [omap list_omap]. by rewrite Hk.
    + rewrite (IH _ H), od_set_keys. unfold line_codes at 2.
      cbn [omap list_omap]. rewrite Hk. cbn [first_occurrences].
      fold (line_codes lines).
      rewrite filter_cons. destruct (od_mem code d) eqn:E.
      * apply od_mem_elem in E. rewrite decide_False by tauto.
        by rewrite filter_ne_absent.
      * assert (code ∉ d.*1) as Hn by (intros ?%od_mem_elem; congruence).
        rewrite decide_True by done. rewrite <- app_assoc. simpl.
        by rewrite filter_absent_snoc.
Qed.

Lemma filter_absent_nil (l : list string) : filter (λ k, k ∉ ([] : list string)) l = l.
Proof.
  induction l as [|x l IH]; [done|].
  rewrite filter_cons, decide_True by apply not_elem_of_nil. by rewrite IH.
Qed.

Lemma odict_by_keys {V} (f : string → option V) (d : odict V) :
  Forall (λ kv, f kv.1 = Some kv.2) d →
  d = omap (λ k, pair k <$> f k) d.*1.
Proof.
  induction 1 as [|[k v] d Hkv _ IH]; [done|].
  rewrite fmap_cons. cbn [omap list_omap fst]. simpl in Hkv. rewrite Hkv.
  cbn [fmap option_fmap option_map]. by rewrite <- IH.
Qed.

(** X1.  The index of a document holds its codes in the order in which they
    first occur in the sequence, each with the last record that has it. *)
Theorem index_in_order_of_first_occurrence doc lines idx :
  py_iter (lines_of doc) = Ok lines →
  build_index doc = Ok idx →
  idx = omap (λ k, pair k <$> last_with_code k lines)
             (first_occurrences (line_codes lines)).
Proof.
  intros Hl Hidx. pose proof Hidx as (lines' & Hl' & Hi)%bind_Ok.
  assert (lines' = lines) as -> by congruence.
  pose proof (index_lines_keys _ _ _ Hi) as Hkeys.
  rewrite fmap_nil, app_nil_l, filter_absent_nil in Hkeys.
  rewrite <- Hkeys. apply odict_by_keys. apply Forall_forall.
  intros [k v] Hin. simpl.
  destruct (build_index_elem _ _ _ _ Hidx Hin) as (_ & Hget & _).
  by rewrite <- (build_index_get _ _ _ k Hl Hidx).
Qed.

Lemma index_in_order_of_first_occurrence_witness :
  [("0007", VDict second_0007); ("0002", VDict row_0002)] =
  omap (λ k, pair k <$>
               last_with_code k [VDict first_0007; VDict row_0002; VDict second_0007])
       (first_occurrences
          (line_codes [VDict first_0007; VDict row_0002; VDict second_0007])).
Proof.
  apply (index_in_order_of_first_occurrence
           (document [first_0007; row_0002; second_0007])).
  - vm_compute. reflexivity.
  - vm_compute. reflexivity.
Defined.

(** ** The report, read off the two sequences *)

(** X2.  A line is reported as missing exactly when it is the last record of
    the original with its code and no record of the confirmation has that
    code; likewise for the extra lines; a discrepancy record is reported
    exactly when it compares the last records of the two sides with one code
    and holds more than the code. *)
Theorem report_from_sequences o c t rep lo lc :
  compare_orders o c t = Ok rep →
  py_iter (lines_of o) = Ok lo →
  py_iter (lines_of c) = Ok lc →
  (∀ v, v ∈ righe_mancanti_nella_conferma rep ↔
        ∃ k, last_with_code k lo = Some v ∧ last_with_code k lc = None) ∧
  (∀ v, v ∈ righe_extra_nella_conferma rep ↔
        ∃ k, last_with_code k lc = Some v ∧ last_with_code k lo = None) ∧
  (∀ d, d ∈ differenze rep ↔
        ∃ k ol cl, last_with_code k lo = Some ol ∧ last_with_code k lc = Some cl ∧
                   compare_line k ol cl t = Ok d ∧ (1 < length d)%nat).
Proof.
  intros H Hlo Hlc.
  destruct (compare_orders_inv _ _ _ _ H)
    as (lo' & lc' & idx_o & idx_c & _ & _ & _ & _ & Ho & Hc & _).
  pose proof (report_elems _ _ _ _ _ _ H Ho Hc) as (Hm & He & Hd).
  assert (∀ k, od_get k idx_o = last_with_code k lo) as Hgo
    by (intros k; by eapply build_index_get).
  assert (∀ k, od_get k idx_c = last_with_code k lc) as Hgc
    by (intros k; by eapply build_index_get).
  split_and!.
  - intros v. rewrite Hm. split; intros (k & Hv & Hn); exists k.
    + rewrite <- Hgo, <- Hgc. split; [|done]. by eapply build_index_elem.
    + rewrite <- Hgo, <- Hgc in *. split; [|done]. by apply od_get_elem.
  - intros v. rewrite He. split; intros (k & Hv & Hn); exists k.
    + rewrite <- Hgo, <- Hgc. split; [|done]. by eapply build_index_elem.
    + rewrite <- Hgo, <- Hgc in *. split; [|done]. by apply od_get_elem.
  - intros d. rewrite Hd. split; intros (k & ol & cl & Hol & Hcl & Hcmp & Hlen);
      exists k, ol, cl.
    + rewrite <- Hgo, <- Hgc. split_and!; [|done..]. by eapply build_index_elem.
    + rewrite <- Hgo, <- Hgc in *. split_and!; [|done..]. by apply od_get_elem.
Qed.

Lemma report_from_sequences_witness :
  VDict second_0007 ∈ [VDict second_0007] ↔
  ∃ k, last_with_code k [VDict first_0007; VDict second_0007] = Some (VDict second_0007) ∧
       last_with_code k [VDict row_0002] = None.
Proof.
  refine (proj1 (report_from_sequences
    (document [first_0007; second_0007]) (document [row_0002]) default_tolerance
    {| differenze := [];
       righe_mancanti_nella_conferma := [VDict second_0007];
       righe_extra_nella_conferma := [VDict row_0002] |}
    [VDict first_0007; VDict second_0007] [VDict row_0002] _ _ _) (VDict second_0007)).
  - vm_compute. reflexivity.
  - vm_compute. reflexivity.
  - vm_compute. reflexivity.
Defined.

(** ** The two sides exchanged *)

Lemma scan_original_missing items conf t diffs miss diffs' miss' :
  scan_original items conf t diffs miss = Ok (diffs', miss') →
  miss' = scan_confirmation items conf miss.
Proof.
  revert diffs miss. induction items as [|[k v] items IH]; intros diffs miss; simpl.
  - by intros [= _ <-].
  - unfold od_mem. destruct (od_get k conf) as [cl|]; [|by apply IH].
    intros (d & _ & H)%bind_Ok. destruct (1 <? length d)%nat; by eapply IH.
Qed.

(** X3.  When the two documents are exchanged, the lines missing in the
    confirmation and the extra lines exchange their lists, in the same
    order, whatever the two tolerances. *)
Theorem exchange_of_sides o c t t' rep rep' :
  compare_orders o c t = Ok rep →
  compare_orders c o t' = Ok rep' →
  righe_mancanti_nella_conferma rep' = righe_extra_nella_conferma rep ∧
  righe_extra_nella_conferma rep' = righe_mancanti_nella_conferma rep.
Proof.
  intros (lo & lc & io & ic & _ & _ & _ & _ & Ho & Hc & Hs & He)%compare_orders_inv.
  intros (lo' & lc' & io' & ic' & _ & _ & _ & _ & Ho' & Hc' & Hs' & He')%compare_orders_inv.
  assert (io' = ic) as -> by congruence. assert (ic' = io) as -> by congruence.
  apply scan_original_missing in Hs, Hs'. by rewrite He, He', Hs, Hs'.
Qed.

Lemma exchange_of_sides_witness :
  [VDict row_0003] = [VDict row_0003] ∧ [VDict row_0002] = [VDict row_0002].
Proof.
  apply (exchange_of_sides (e2e_original "totale_riga") (e2e_confirmation "totale_riga")
           default_tolerance 0.5%float
           {| differenze :=
                [[("codice", VStr "0001");
                  ("prezzo_unitario", VTuple [VFloat 2; VFloat 2.5]);
                  ("totale_riga", VTuple [VFloat 10; VFloat 12.5])]];
              righe_mancanti_nella_conferma := [VDict row_0002];
              righe_extra_nella_conferma := [VDict row_0003] |}
           {| differenze :=
                [[("codice", VStr "0001");
                  ("prezzo_unitario", VTuple [VFloat 2.5; VFloat 2]);
                  ("totale_riga", VTuple [VFloat 12.5; VFloat 10])]];
              righe_mancanti_nella_conferma := [VDict row_0003];
              righe_extra_nella_conferma := [VDict row_0002] |}).
  - vm_compute. reflexivity.
  - vm_compute. reflexivity.
Defined.

(** ** One side without lines *)

Lemma scan_original_empty items t diffs miss :
  scan_original items [] t diffs miss = Ok (diffs, (miss ++ items.*2)%list).
Proof.
  revert miss. induction items as [|[k v] items IH]; intros miss; simpl.
  - by rewrite app_nil_r.
  - rewrite IH. by rewrite <- app_assoc.
Qed.

Lemma scan_confirmation_empty (items : odict value) extra :
  scan_confirmation items [] extra = (extra ++ items.*2)%list.
Proof.
  revert extra. induction items as [|[k v] items IH]; intros extra; simpl.
  - by rewrite app_nil_r.
  - rewrite IH. by rewrite <- app_assoc.
Qed.

(** X4.  Against a document without indexed lines, every indexed line of
    the other document is reported, in the order of the index: as missing
    when the confirmation is the one without lines, as extra when the
    original is; nothing else is reported. *)
Theorem one_side_without_lines doc other t idx :
  build_index doc = Ok idx →
  build_index other = Ok [] →
  compare_orders doc other t =
    Ok {| differenze := [];
          righe_mancanti_nella_conferma := idx.*2;
          righe_extra_nella_conferma := [] |} ∧
  compare_orders other doc t =
    Ok {| differenze := [];
          righe_mancanti_nella_conferma := [];
          righe_extra_nella_conferma := idx.*2 |}.
Proof.
  intros Hidx Hoth. unfold compare_orders. rewrite Hidx, Hoth.
  cbn [mbind result_bind]. rewrite scan_original_empty.
  cbn [mbind result_bind scan_original scan_confirmation].
  by rewrite scan_confirmation_empty.
Qed.

Lemma one_side_without_lines_witness :
  compare_orders (document [first_0007; row_0002; second_0007]) ∅ default_tolerance =
    Ok {| differenze := [];
          righe_mancanti_nella_conferma := [VDict second_0007; VDict row_0002];
          righe_extra_nella_conferma := [] |} ∧
  compare_orders ∅ (document [first_0007; row_0002; second_0007]) default_tolerance =
    Ok {| differenze := [];
          righe_mancanti_nella_conferma := [];
          righe_extra_nella_conferma := [VDict second_0007; VDict row_0002] |}.
Proof.
  apply (one_side_without_lines (document [first_0007; row_0002; second_0007]) ∅
           default_tolerance [("0007", VDict second_0007); ("0002", VDict row_0002)]).
  - vm_compute. reflexivity.
  - vm_compute. reflexivity.
Defined.

(** ** The loop body in full *)

(** What [compare_line] read, and the record it built, note included. *)
Lemma compare_line_full k o c t d :
  compare_line k o c t = Ok d →
  ∃ oq cq op cp ot ct,
    py_get o "quantita" ≫= _parse_number = Ok oq ∧
    py_get c "quantita" ≫= _parse_number = Ok cq ∧
    py_get o "prezzo_unitario" ≫= _parse_number = Ok op ∧
    py_get c "prezzo_unitario" ≫= _parse_number = Ok cp ∧
    py_get o "totale_riga" ≫= _parse_number = Ok ot ∧
    py_get c "totale_riga" ≫= _parse_number = Ok ct ∧
    d = ([("codice", VStr k)]
         ++ (if differ oq cq
             then [("quantita", VTuple [opt_value oq; opt_value cq])] else [])
         ++ (if differ op cp
             then [("prezzo_unitario", VTuple [opt_value op; opt_value cp])] else [])
         ++ (if differ ot ct
             then [("totale_riga", VTuple [opt_value ot; opt_value ct])] else [])
         ++ (if differ oq cq &&
                match ot, ct with
                | Some x, Some y =>
                    negb (PrimFloat.eqb x 0) &&
                    PrimFloat.ltb (PrimFloat.div (PrimFloat.abs (PrimFloat.sub x y)) x) t
                | _, _ => false
                end
             then [("nota", VList [VStr unit_note])] else []))%list.
Proof.
  unfold compare_line. cbv zeta.
  intros (oq & Hoq & H)%bind_Ok. apply bind_Ok in H as (cq & Hcq & H).
  apply bind_Ok in H as (op & Hop & H). apply bind_Ok in H as (cp & Hcp & H).
  apply bind_Ok in H as (ot & Hot & H). apply bind_Ok in H as (ct & Hct & H).
  exists oq, cq, op, cp, ot, ct. split_and!; try done.
  destruct (differ oq cq) eqn:Eq, (differ op cp) eqn:Ep, (differ ot ct) eqn:Et;
    destruct ot as [x|], ct as [y|]; cbn [andb app] in H |- *;
    try (injection H as <-; reflexivity);
    destruct (PrimFloat.eqb x 0); cbn [negb andb] in H |- *;
    try (injection H as <-; reflexivity);
    destruct (PrimFloat.ltb _ t); cbn [negb andb] in H |- *;
    try (injection H as <-; reflexivity);
    rewrite setdefault_append_fresh in H by reflexivity;
    injection H as <-; reflexivity.
Qed.

(** ** The note *)

(** X5.  The comparison of two matched lines attaches the note exactly when
    the two quantities are numbers that differ, both totals are numbers, the
    total of the original is not zero, and the difference of the totals
    relative to the total of the original is below the tolerance. *)
Theorem note_exactly_when k o c t d :
  compare_line k o c t = Ok d →
  ∃ oq cq ot ct,
    py_get o "quantita" ≫= _parse_number = Ok oq ∧
    py_get c "quantita" ≫= _parse_number = Ok cq ∧
    py_get o "totale_riga" ≫= _parse_number = Ok ot ∧
    py_get c "totale_riga" ≫= _parse_number = Ok ct ∧
    (od_get "nota" d = Some (VList [VStr unit_note]) ∨ od_get "nota" d = None) ∧
    (od_mem "nota" d = true ↔
     ∃ a b x y,
       oq = Some a ∧ cq = Some b ∧ PrimFloat.eqb a b = false ∧
       ot = Some x ∧ ct = Some y ∧ PrimFloat.eqb x 0 = false ∧
       PrimFloat.ltb (PrimFloat.div (PrimFloat.abs (PrimFloat.sub x y)) x) t = true).
Proof.
  intros (oq & cq & op & cp & ot & ct & Hoq & Hcq & _ & _ & Hot & Hct & ->)%compare_line_full.
  exists oq, cq, ot, ct. split_and!; try done.
  - by repeat case_match; auto.
  - split.
    + intros Hn.
      destruct (differ oq cq) eqn:Eq;
        [|by destruct (differ op cp), (differ ot ct)].
      apply differ_true in Eq as (a & b & -> & -> & Hab).
      destruct ot as [x|], ct as [y|];
        try by destruct (differ op cp), (differ _ _).
      exists a, b, x, y.
      destruct (PrimFloat.eqb x 0);
        [by destruct (differ op cp), (differ _ _)|].
      destruct (PrimFloat.ltb _ t);
        [done|by destruct (differ op cp), (differ _ _)].
    + intros (a & b & x & y & -> & -> & Hab & -> & -> & Hx & Ht).
      cbn [differ]. rewrite Hab, Hx, Ht. cbn [negb andb].
      by destruct (differ op cp), (negb _).
Qed.

Lemma note_exactly_when_witness :
  ∃ oq cq ot ct,
    py_get (VDict (row_0001 2 10 "totale_riga")) "quantita" ≫= _parse_number = Ok oq ∧
    py_get (VDict (row_0001 2.5 12.5 "totale_riga")) "quantita" ≫= _parse_number = Ok cq ∧
    py_get (VDict (row_0001 2 10 "totale_riga")) "totale_riga" ≫= _parse_number = Ok ot ∧
    py_get (VDict (row_0001 2.5 12.5 "totale_riga")) "totale_riga" ≫= _parse_number = Ok ct ∧
    (od_get "nota" [("codice", VStr "0001");
                    ("prezzo_unitario", VTuple [VFloat 2; VFloat 2.5]);
                    ("totale_riga", VTuple [VFloat 10; VFloat 12.5])]
       = Some (VList [VStr unit_note]) ∨
     od_get "nota" [("codice", VStr "0001");
                    ("prezzo_unitario", VTuple [VFloat 2; VFloat 2.5]);
                    ("totale_riga", VTuple [VFloat 10; VFloat 12.5])] = None) ∧
    (od_mem "nota" [("codice", VStr "0001");
                    ("prezzo_unitario", VTuple [VFloat 2; VFloat 2.5]);
                    ("totale_riga", VTuple [VFloat 10; VFloat 12.5])] = true ↔
     ∃ a b x y,
       oq = Some a ∧ cq = Some b ∧ PrimFloat.eqb a b = false ∧
       ot = Some x ∧ ct = Some y ∧ PrimFloat.eqb x 0 = false ∧
       PrimFloat.ltb (PrimFloat.div (PrimFloat.abs (PrimFloat.sub x y)) x)
         default_tolerance = true).
Proof.
  apply (note_exactly_when "0001" (VDict (row_0001 2 10 "totale_riga"))
           (VDict (row_0001 2.5 12.5 "totale_riga")) default_tolerance).
  vm_compute. reflexivity.
Defined.

(** ** The tolerance *)

Lemma compare_line_tolerance k o c t t' d :
  compare_line k o c t = Ok d →
  ∃ d', compare_line k o c t' = Ok d' ∧
        without_note d' = without_note d ∧
        (1 <? length d')%nat = (1 <? length d)%nat.
Proof.
  intros H. pose proof H as
    (oq & cq & op & cp & ot & ct & Hoq & Hcq & Hop & Hcp & Hot & Hct & ->)%compare_line_full.
  destruct (compare_line_total k o c t') as [d' Hd'].
  { intros f Hf. repeat (apply elem_of_cons in Hf as [->|Hf]);
      [by eauto..|by apply elem_of_nil in Hf]. }
  exists d'. split; [done|].
  apply compare_line_full in Hd'
    as (oq' & cq' & op' & cp' & ot' & ct' & Hoq' & Hcq' & Hop' & Hcp' & Hot' & Hct' & ->).
  assert (oq' = oq) as -> by congruence. assert (cq' = cq) as -> by congruence.
  assert (op' = op) as -> by congruence. assert (cp' = cp) as -> by congruence.
  assert (ot' = ot) as -> by congruence. assert (ct' = ct) as -> by congruence.
  destruct (differ oq cq), (differ op cp), (differ ot ct); cbn [andb];
    repeat case_match; done.
Qed.

Lemma scan_original_tolerance items conf t t' diffs miss diffs1 miss1 diffs' :
  scan_original items conf t diffs miss = Ok (diffs1, miss1) →
  without_note <$> diffs' = without_note <$> diffs →
  ∃ diffs2, scan_original items conf t' diffs' miss = Ok (diffs2, miss1) ∧
            without_note <$> diffs2 = without_note <$> diffs1.
Proof.
  revert diffs miss diffs'.
  induction items as [|[k v] items IH]; intros diffs miss diffs'; simpl.
  - intros [= <- <-] Hd. by exists diffs'.
  - destruct (od_get k conf) as [cl|]; [|by apply IH].
    intros (d & Hd & H)%bind_Ok Hdiffs.
    destruct (compare_line_tolerance _ _ _ _ t' _ Hd) as (d' & -> & Hw & Hlen).
    cbn [mbind result_bind]. rewrite Hlen.
    destruct (1 <? length d)%nat; eapply IH; try done.
    by rewrite !fmap_app, Hdiffs, !list_fmap_singleton, Hw.
Qed.

(** X6.  The tolerance decides the notes and nothing else: when
    [compare_orders] returns under one tolerance it returns under any other,
    with the same lines missing, the same extra lines, and the same
    discrepancy records up to their notes. *)
Theorem tolerance_decides_notes_only o c t t' rep :
  compare_orders o c t = Ok rep →
  ∃ rep', compare_orders o c t' = Ok rep' ∧
          righe_mancanti_nella_conferma rep' = righe_mancanti_nella_conferma rep ∧
          righe_extra_nella_conferma rep' = righe_extra_nella_conferma rep ∧
          without_note <$> differenze rep' = without_note <$> differenze rep.
Proof.
  intros (lo & lc & io & ic & _ & _ & _ & _ & Ho & Hc & Hs & He)%compare_orders_inv.
  destruct (scan_original_tolerance _ _ _ t' _ _ _ _ [] Hs eq_refl) as (diffs2 & Hs' & Hw).
  unfold compare_orders. rewrite Ho, Hc. cbn [mbind result_bind].
  rewrite Hs'. cbn [mbind result_bind]. eexists. split; [done|]. by rewrite He.
Qed.

Lemma tolerance_decides_notes_only_witness :
  ∃ rep', compare_orders unit_original unit_confirmation 0.01%float = Ok rep' ∧
          righe_mancanti_nella_conferma rep' = [] ∧
          righe_extra_nella_conferma rep' = [] ∧
          without_note <$> differenze rep' = without_note <$> [unit_record].
Proof.
  apply (tolerance_decides_notes_only unit_original unit_confirmation
           default_tolerance 0.01%float
           {| differenze := [unit_record];
              righe_mancanti_nella_conferma := [];
              righe_extra_nella_conferma := [] |}).
  vm_compute. reflexivity.
Defined.

(** ** The shape of a discrepancy record *)

(** X7.  Every discrepancy record of a report begins with the trimmed code;
    its keys are among codice, quantita, prezzo_unitario, totale_riga and
    nota, in this order; each of the three fields it holds is a pair of two
    numbers that differ; and it holds at least one of them. *)
Theorem discrepancy_record_shape o c t rep d :
  compare_orders o c t = Ok rep →
  d ∈ differenze rep →
  (∃ k, head d = Some ("codice", VStr k)) ∧
  sublist d.*1 ["codice"; "quantita"; "prezzo_unitario"; "totale_riga"; "nota"] ∧
  (∀ f v, f ∈ numeric_fields → od_get f d = Some v →
          ∃ x y, v = VTuple [VFloat x; VFloat y] ∧ PrimFloat.eqb x y = false) ∧
  (∃ f, f ∈ numeric_fields ∧ od_mem f d = true).
Proof.
  intros H Hd.
  destruct (compare_orders_inv _ _ _ _ H)
    as (lo & lc & io & ic & _ & _ & _ & _ & Ho & Hc & _).
  apply (report_elems _ _ _ _ _ _ H Ho Hc) in Hd as (k & ol & cl & _ & _ & Hcmp & Hlen).
  apply compare_line_full in Hcmp
    as (oq & cq & op & cp & ot & ct & _ & _ & _ & _ & _ & _ & ->).
  set (note := match ot, ct with Some x, Some y => _ | _, _ => false end) in *.
  clearbody note.
  assert (∀ a b v, differ a b = true → Some (VTuple [opt_value a; opt_value b]) = Some v →
            ∃ x y, v = VTuple [VFloat x; VFloat y] ∧ PrimFloat.eqb x y = false) as Hpair.
  { intros a b v (x & y & -> & -> & Hxy)%differ_true [= <-]. by exists x, y. }
  split_and!.
  - by exists k.
  - destruct (differ oq cq), (differ op cp), (differ ot ct), note; cbn;
      repeat first [apply sublist_nil | apply sublist_skip | apply sublist_cons].
  - intros f v Hf.
    repeat (apply elem_of_cons in Hf as [->|Hf]); [..|by apply elem_of_nil in Hf];
      destruct (differ oq cq) eqn:Eq, (differ op cp) eqn:Ep, (differ ot ct) eqn:Et, note;
      cbn; try done; by apply Hpair.
  - destruct (differ oq cq) eqn:Eq;
      [exists "quantita"; split; [repeat constructor|];
       by destruct (differ op cp), (differ ot ct), note|].
    destruct (differ op cp) eqn:Ep;
      [exists "prezzo_unitario"; split; [repeat constructor|];
       by destruct (differ ot ct), note|].
    destruct (differ ot ct) eqn:Et;
      [exists "totale_riga"; split; [repeat constructor|]; by destruct note|].
    cbn in Hlen. lia.
Qed.

Lemma discrepancy_record_shape_witness :
  (∃ k, head unit_record = Some ("codice", VStr k)) ∧
  sublist unit_record.*1
    ["codice"; "quantita"; "prezzo_unitario"; "totale_riga"; "nota"] ∧
  (∀ f v, f ∈ numeric_fields → od_get f unit_record = Some v →
          ∃ x y, v = VTuple [VFloat x; VFloat y] ∧ PrimFloat.eqb x y = false) ∧
  (∃ f, f ∈ numeric_fields ∧ od_mem f unit_record = true).
Proof.
  apply (discrepancy_record_shape unit_original unit_confirmation default_tolerance
           {| differenze := [unit_record];
              righe_mancanti_nella_conferma := [];
              righe_extra_nella_conferma := [] |}).
  - vm_compute. reflexivity.
  - left.
Defined.

(** ** Each code at most once *)

Lemma elem_of_line_codes k lines : k ∈ line_codes lines ↔ code_among k lines.
Proof.
  unfold line_codes, code_among. rewrite list_elem_of_omap.
  split; intros (v & Hv & Hk); exists v; (split; [done|]).
  - by destruct (line_key v) as [[k'|]|]; simplify_eq.
  - by rewrite Hk.
Qed.

Lemma elem_of_record_codes k records :
  k ∈ record_codes records ↔ code_among_records k records.
Proof.
  unfold record_codes, code_among_records. rewrite list_elem_of_omap.
  split; intros (d & Hd & Hk); exists d; (split; [done|]).
  - by repeat case_match; simplify_eq.
  - by rewrite Hk.
Qed.

Lemma scan_confirmation_filter (items other : odict value) extra :
  scan_confirmation items other extra =
    (extra ++ (filter (λ kv, od_get kv.1 other = None) items).*2)%list.
Proof.
  revert extra. induction items as [|[k v] items IH]; intros extra; simpl.
  - by rewrite app_nil_r.
  - rewrite filter_cons. unfold od_mem. simpl.
    destruct (od_get k other) eqn:E; rewrite IH.
    + by rewrite decide_False by done.
    + rewrite decide_True by done. by rewrite <- app_assoc.
Qed.

Lemma line_codes_of_indexed (items : odict value) :
  Forall (λ kv, line_key kv.2 = Ok (Some kv.1)) items →
  line_codes items.*2 = items.*1.
Proof.
  induction 1 as [|[k v] items Hkv _ IH]; [done|].
  unfold line_codes in *. rewrite !fmap_cons. cbn [omap list_omap snd fst].
  simpl in Hkv. rewrite Hkv. simpl. by rewrite IH.
Qed.

Lemma absent_codes_NoDup doc idx (other : odict value) :
  build_index doc = Ok idx →
  NoDup (line_codes (scan_confirmation idx other [])) ∧
  length (line_codes (scan_confirmation idx other [])) =
    length (scan_confirmation idx other []).
Proof.
  intros Hidx. rewrite scan_confirmation_filter, app_nil_l.
  assert (Forall (λ kv, line_key kv.2 = Ok (Some kv.1))
            (filter (λ kv, od_get kv.1 other = None) idx)) as Hall.
  { apply Forall_forall. intros [k v] [_ Hin]%list_elem_of_filter.
    by destruct (build_index_elem _ _ _ _ Hidx Hin) as [? _]. }
  rewrite (line_codes_of_indexed _ Hall), !length_fmap. split; [|done].
  eapply sublist_NoDup; [|by apply fmap_sublist, sublist_filter].
  apply bind_Ok in Hidx as (lines & _ & Hi).
  eapply index_lines_NoDup; [done|]. apply NoDup_nil_2.
Qed.

Lemma scan_original_codes items conf t diffs miss diffs' miss' :
  scan_original items conf t diffs miss = Ok (diffs', miss') →
  ∃ ks, record_codes diffs' = (record_codes diffs ++ ks)%list ∧
        sublist ks items.*1 ∧
        (length diffs + length ks = length diffs')%nat.
Proof.
  revert diffs miss. induction items as [|[k v] items IH]; intros diffs miss; simpl.
  - intros [= <- <-]. exists []. by rewrite app_nil_r, Nat.add_0_r.
  - destruct (od_get k conf) as [cl|].
    + intros (d & Hd & H)%bind_Ok. apply compare_line_codice in Hd.
      destruct (1 <? length d)%nat; apply IH in H as (ks & Hks & Hsub & Hlen).
      * exists (k :: ks). split_and!.
        -- rewrite Hks. unfold record_codes. rewrite omap_app. cbn [omap list_omap].
           rewrite Hd. by rewrite <- app_assoc.
        -- by apply sublist_skip.
        -- rewrite length_app in Hlen. simpl in *. lia.
      * exists ks. split_and!; [done| |done]. by apply sublist_cons.
    + intros (ks & Hks & Hsub & Hlen)%IH. exists ks.
      split_and!; [done| |done]. by apply sublist_cons.
Qed.

(** X8.  No code is reported twice: the codes of the lines missing in the
    confirmation, of the discrepancy records and of the extra lines of a
    report are pairwise distinct, and every line and record of the report
    has a code. *)
Theorem no_code_reported_twice o c t rep :
  compare_orders o c t = Ok rep →
  NoDup (line_codes (righe_mancanti_nella_conferma rep)
         ++ record_codes (differenze rep)
         ++ line_codes (righe_extra_nella_conferma rep))%list ∧
  length (line_codes (righe_mancanti_nella_conferma rep)) =
    length (righe_mancanti_nella_conferma rep) ∧
  length (record_codes (differenze rep)) = length (differenze rep) ∧
  length (line_codes (righe_extra_nella_conferma rep)) =
    length (righe_extra_nella_conferma rep).
Proof.
  intros H.
  destruct (compare_orders_inv _ _ _ _ H)
    as (lo & lc & io & ic & _ & Hio & _ & _ & Ho & Hc & Hs & He).
  pose proof (scan_original_missing _ _ _ _ _ _ _ Hs) as Hm.
  destruct (absent_codes_NoDup _ _ ic Ho) as [Hnm Hlm].
  destruct (absent_codes_NoDup _ _ io Hc) as [Hne Hle].
  rewrite <- Hm in Hnm, Hlm. rewrite <- He in Hne, Hle.
  destruct (scan_original_codes _ _ _ _ _ _ _ Hs) as (ks & Hks & Hsub & Hlen).
  simpl in Hks, Hlen.
  assert (NoDup ks) as Hnd.
  { eapply sublist_NoDup; [|done]. eapply index_lines_NoDup; [done|]. apply NoDup_nil_2. }
  split_and!; [|done| |done].
  - rewrite Hks. apply NoDup_app. split_and!; [done| |].
    + intros k Hk1%elem_of_line_codes Hk2. rewrite <- Hks in Hk2.
      apply elem_of_app in Hk2 as [Hk2%elem_of_record_codes|Hk2%elem_of_line_codes].
      * eapply missing_code in Hk1 as [_ Hn]; [|done..].
        eapply record_code in Hk2 as [_ [v Hv]]; [|done..]. congruence.
      * eapply missing_code in Hk1 as [[v Hv] _]; [|done..].
        eapply extra_code in Hk2 as [_ Hn]; [|done..]. congruence.
    + apply NoDup_app. split_and!; [done| |done].
      intros k Hk1 Hk2%elem_of_line_codes. rewrite <- Hks in Hk1.
      apply elem_of_record_codes in Hk1.
      eapply record_code in Hk1 as [[v Hv] _]; [|done..].
      eapply extra_code in Hk2 as [_ Hn]; [|done..]. congruence.
  - rewrite Hks. lia.
Qed.

Lemma no_code_reported_twice_witness :
  NoDup (line_codes [VDict row_0002]
         ++ record_codes [[("codice", VStr "0001");
                           ("prezzo_unitario", VTuple [VFloat 2; VFloat 2.5])]]
         ++ line_codes [VDict row_0003])%list ∧
  length (line_codes [VDict row_0002]) = length [VDict row_0002] ∧
  length (record_codes [[("codice", VStr "0001");
                         ("prezzo_unitario", VTuple [VFloat 2; VFloat 2.5])]]) =
    length [[("codice", VStr "0001");
             ("prezzo_unitario", VTuple [VFloat 2; VFloat 2.5])]] ∧
  length (line_codes [VDict row_0003]) = length [VDict row_0003].
Proof.
  apply (no_code_reported_twice (e2e_original "importo") (e2e_confirmation "importo")
           default_tolerance
           {| differenze :=
                [[("codice", VStr "0001");
                  ("prezzo_unitario", VTuple [VFloat 2; VFloat 2.5])]];
              righe_mancanti_nella_conferma := [VDict row_0002];
              righe_extra_nella_conferma := [VDict row_0003] |}).
  vm_compute. reflexivity.
Defined.

(** ** The outcomes of [_parse_number] *)

Lemma of_int_raises z e : PyFloat.of_int z = Raise e → e = OverflowError.
Proof. unfold PyFloat.of_int. by case_match; intros [= <-]. Qed.

(** X9.  [_parse_number] of the comparator raises only [OverflowError], and
    only on an integer; it gives no number exactly on [None], on a list, a
    tuple or a dictionary, and on a string that the parser of the extractor
    rejects. *)
Theorem parse_number_outcomes v :
  (∀ e, _parse_number v = Raise e → e = OverflowError ∧ ∃ z, v = VInt z) ∧
  (_parse_number v = Ok None ↔
   v = VNone ∨ (∃ l, v = VList l) ∨ (∃ l, v = VTuple l) ∨ (∃ d, v = VDict d) ∨
   ∃ s, v = VStr s ∧ ParseOrders._parse_number s = Raise ValueError).
Proof.
  split.
  - intros e H. destruct v; simpl in H; try done.
    + destruct (PyFloat.of_int z) as [x|e'] eqn:E; [done|].
      injection H as <-. split; [by eapply of_int_raises|by eexists].
    + destruct (PyFloat.of_string _) as [x|e'] eqn:E; [done|].
      by apply of_string_raises in E as ->.
  - destruct v; simpl.
    + split; [by left|done].
    + split; [done|]. intros [?|[[? ?]|[[? ?]|[[? ?]|(? & ? & ?)]]]]; done.
    + split; [by destruct (PyFloat.of_int z)|].
      intros [?|[[? ?]|[[? ?]|[[? ?]|(? & ? & ?)]]]]; done.
    + split; [done|]. intros [?|[[? ?]|[[? ?]|[[? ?]|(? & ? & ?)]]]]; done.
    + unfold ParseOrders._parse_number. split.
      * intros H. right; right; right; right. exists s. split; [done|].
        destruct (PyFloat.of_string _) as [x|e] eqn:E; [done|].
        by apply of_string_raises in E as ->.
      * intros [?|[[? ?]|[[? ?]|[[? ?]|(s' & [= <-] & ->)]]]]; done.
    + split; [intros _; right; left; by eexists|done].
    + split; [intros _; right; right; left; by eexists|done].
    + split; [intros _; right; right; right; left; by eexists|done].
Qed.

(** ** Trimmed codes *)

Lemma rstrip_twice s : Str.rstrip (Str.rstrip s) = Str.rstrip s.
Proof.
  induction s as [|c s IH]; [done|]. cbn [Str.rstrip].
  destruct (Str.rstrip s) as [|c1 r1] eqn:E.
  - destruct (Str.isspace c) eqn:Ec; [done|]. cbn [Str.rstrip]. by rewrite Ec.
  - cbn [Str.rstrip]. cbn [Str.rstrip] in IH.
    by destruct (Str.rstrip r1); destruct (Str.isspace c1); simplify_eq.
Qed.

Lemma lstrip_head s :
  Str.lstrip s = EmptyString ∨
  ∃ c r, Str.lstrip s = String c r ∧ Str.isspace c = false.
Proof.
  induction s as [|c s IH]; [by left|]. cbn [Str.lstrip].
  destruct (Str.isspace c) eqn:E; [done|]. right. by exists c, s.
Qed.

Lemma rstrip_head c r :
  Str.isspace c = false → ∃ r', Str.rstrip (String c r) = String c r'.
Proof.
  intros Hc. cbn [Str.rstrip]. destruct (Str.rstrip r); [|by eexists].
  rewrite Hc. by eexists.
Qed.

Lemma strip_twice s : Str.strip (Str.strip s) = Str.strip s.
Proof.
  unfold Str.strip.
  destruct (lstrip_head s) as [->|(c & r & -> & Hc)]; [done|].
  destruct (rstrip_head c r Hc) as [r' Hr].
  rewrite Hr. cbn [Str.lstrip]. rewrite Hc, <- Hr. apply rstrip_twice.
Qed.

Lemma line_key_trimmed line k : line_key line = Ok (Some k) → Str.strip k = k.
Proof.
  unfold line_key. intros (c & _ & H)%bind_Ok.
  destruct (is_none c); [done|].
  apply bind_Ok in H as (c' & _ & H). apply bind_Ok in H as (k' & Hk & [= <-]).
  destruct (py_or c' (VStr "")); try done.
  injection Hk as <-. apply strip_twice.
Qed.

(** X10.  Every code in a report is trimmed: stripping the code of a line
    missing in the confirmation, of an extra line or of a discrepancy record
    again leaves it as it is. *)
Theorem reported_codes_are_trimmed o c t rep k :
  compare_orders o c t = Ok rep →
  code_among k (righe_mancanti_nella_conferma rep) ∨
  code_among k (righe_extra_nella_conferma rep) ∨
  code_among_records k (differenze rep) →
  Str.strip k = k.
Proof.
  intros H [(v & _ & Hk)|[(v & _ & Hk)|(d & Hd & Hk)]];
    [by eapply line_key_trimmed..|].
  destruct (compare_orders_inv _ _ _ _ H)
    as (lo & lc & io & ic & _ & _ & _ & _ & Ho & Hc & _).
  apply (report_elems _ _ _ _ _ _ H Ho Hc) in Hd as (k' & ol & cl & Hin & _ & Hcmp & _).
  apply compare_line_codice in Hcmp. assert (k' = k) as -> by congruence.
  destruct (build_index_elem _ _ _ _ Ho Hin) as [Hkey _].
  by eapply line_key_trimmed.
Qed.

Lemma reported_codes_are_trimmed_witness : Str.strip "0007" = "0007".
Proof.
  apply (reported_codes_are_trimmed (document [first_0007; second_0007]) (document [])
           default_tolerance
           {| differenze := [];
              righe_mancanti_nella_conferma := [VDict second_0007];
              righe_extra_nella_conferma := [] |}).
  - vm_compute. reflexivity.
  - left. exists (VDict second_0007). split; [left|]. vm_compute. reflexivity.
Defined.

(** ** The decomposition of a row *)

Section Rows.
Import ParseOrders.

Lemma item_from_end_app (desc six : list string) i :
  (0 < i ≤ length six)%nat →
  item_from_end (desc ++ six) i = item six (length six - i).
Proof.
  intros [Hi Hl]. unfold item_from_end, item. rewrite length_app.
  destruct (Nat.ltb_spec (length desc + length six) i); [lia|].
  rewrite lookup_app_r by lia.
  by replace (length desc + length six - i - length desc)%nat
    with (length six - i)%nat by lia.
Qed.

Lemma parse_number_raises token e : _parse_number token = Raise e → e = ValueError.
Proof. apply of_string_raises. Qed.

Lemma parse_row_tokens stripped code sup desc um tq tp td ti tv :
  Str.split_ws stripped = code :: sup :: (desc ++ [um; tq; tp; td; ti; tv])%list →
  parse_row stripped =
    match _parse_number tq, _parse_number tp, _parse_number ti with
    | Ok q, Ok p, Ok i =>
        Ok (Some (row_record code sup (Str.strip (Str.join " " desc)) um q p i))
    | _, _, _ => Ok None
    end.
Proof.
  intros Hparts. unfold parse_row. rewrite Hparts.
  assert (length (code :: sup :: desc ++ [um; tq; tp; td; ti; tv]) =
          length desc + 8)%nat as Hlen by (simpl; rewrite length_app; simpl; lia).
  rewrite Hlen. destruct (Nat.ltb_spec (length desc + 8) 8); [lia|].
  cbn [item lookup list_lookup mbind result_bind].
  change (drop 2 (code :: sup :: ?l)) with l.
  assert (length (desc ++ [um; tq; tp; td; ti; tv]) = length desc + 6)%nat as Hrem
    by (rewrite length_app; simpl; lia).
  rewrite Hrem. destruct (Nat.ltb_spec (length desc + 6) 6); [lia|].
  rewrite !item_from_end_app by (simpl; lia).
  cbn [length Nat.sub item lookup list_lookup mbind result_bind].
  replace (length desc + 6 - 6)%nat with (length desc) by lia.
  rewrite take_app_length.
  destruct (_parse_number tq) as [q|e] eqn:Eq;
    [|by apply parse_number_raises in Eq as ->].
  destruct (_parse_number tp) as [p|e] eqn:Ep;
    [|by apply parse_number_raises in Ep as ->].
  destruct (_parse_number ti) as [i|e] eqn:Ei;
    [|by apply parse_number_raises in Ei as ->].
  done.
Qed.


(** X11.  A row of fewer than eight tokens gives nothing.  A row of at
    least eight tokens is read from its two ends: the
    first two tokens are the code and the code of the supplier, the last six
    are the unit, the quantity, the price, the discount, the total and the
    tax, and the tokens between are the description, joined by blanks.  The
    row gives a record when the quantity, the price and the total are
    numbers, and nothing otherwise; the discount and the tax are not
    read. *)
Theorem row_decomposition stripped :
  ((length (Str.split_ws stripped) < 8)%nat → parse_row stripped = Ok None) ∧
  (∀ code sup desc um tq tp td ti tv,
     Str.split_ws stripped = code :: sup :: (desc ++ [um; tq; tp; td; ti; tv])%list →
     parse_row stripped =
       match _parse_number tq, _parse_number tp, _parse_number ti with
       | Ok q, Ok p, Ok i =>
           Ok (Some (row_record code sup (Str.strip (Str.join " " desc)) um q p i))
       | _, _, _ => Ok None
       end).
Proof.
  split; [|apply parse_row_tokens].
  intros H. unfold parse_row.
  by destruct (Nat.ltb_spec (length (Str.split_ws stripped)) 8); [|lia].
Qed.

Example parse_row_tokens_sample :
  parse_row "0001 AB12 vite a testa piana PZ 5,00 1.234,56 - 6.172,80 22%" =
    match _parse_number "5,00", _parse_number "1.234,56", _parse_number "6.172,80" with
    | Ok q, Ok p, Ok i =>
        Ok (Some (row_record "0001" "AB12"
                    (Str.strip (Str.join " " ["vite"; "a"; "testa"; "piana"])) "PZ" q p i))
    | _, _, _ => Ok None
    end.
Proof.
  apply (parse_row_tokens _ "0001" "AB12" ["vite"; "a"; "testa"; "piana"]
           "PZ" "5,00" "1.234,56" "-" "6.172,80" "22%").
  vm_compute. reflexivity.
Qed.

Lemma last_six (l : list string) :
  (6 ≤ length l)%nat → ∃ desc a b c d e f, l = (desc ++ [a; b; c; d; e; f])%list.
Proof.
  intros Hl. exists (take (length l - 6) l).
  pose proof (take_drop (length l - 6) l) as Hsplit.
  pose proof (length_drop l (length l - 6)) as Hlen.
  destruct (drop (length l - 6) l) as [|a [|b [|c [|d [|e [|f [|g six]]]]]]];
    simpl in Hlen; try lia.
  by exists a, b, c, d, e, f.
Qed.

Lemma parse_row_inv stripped it :
  parse_row stripped = Ok (Some it) →
  ∃ code sup desc um tq tp td ti tv q p i,
    Str.split_ws stripped = code :: sup :: (desc ++ [um; tq; tp; td; ti; tv])%list ∧
    _parse_number tq = Ok q ∧ _parse_number tp = Ok p ∧ _parse_number ti = Ok i ∧
    it = row_record code sup (Str.strip (Str.join " " desc)) um q p i.
Proof.
  intros H.
  assert (8 ≤ length (Str.split_ws stripped))%nat as Hlen.
  { unfold parse_row in H.
    destruct (Nat.ltb_spec (length (Str.split_ws stripped)) 8); [done|lia]. }
  destruct (Str.split_ws stripped) as [|code [|sup rem]] eqn:Hparts;
    [simpl in Hlen; lia..|].
  destruct (last_six rem) as (desc & um & tq & tp & td & ti & tv & ->);
    [simpl in Hlen; lia|].
  rewrite (parse_row_tokens _ _ _ _ _ _ _ _ _ _ Hparts) in H.
  destruct (_parse_number tq) as [q|] eqn:Eq; [|done].
  destruct (_parse_number tp) as [p|] eqn:Ep; [|done].
  destruct (_parse_number ti) as [i|] eqn:Ei; [|done].
  injection H as <-. by exists code, sup, desc, um, tq, tp, td, ti, tv, q, p, i.
Qed.

Lemma parse_row_returns stripped : ∃ r, parse_row stripped = Ok r.
Proof. destruct (parse_row_numeric stripped) as (r & Hr & _). by exists r. Qed.

(** ** The table between its markers *)

Lemma scan_lines_seeking pre rest items :
  Forall (λ l, is_header l = false) pre →
  scan_lines (pre ++ rest) false items = scan_lines rest false items.
Proof.
  induction 1 as [|l pre Hl _ IH]; [done|].
  cbn [app scan_lines negb]. unfold is_header in Hl. by rewrite Hl.
Qed.

Lemma scan_lines_rows body items :
  Forall (λ l, is_terminator l = false) body →
  scan_lines body true items = Ok (items ++ omap row_of body)%list.
Proof.
  intros H. revert items. induction H as [|l body Hl _ IH]; intros items.
  - by rewrite app_nil_r.
  - cbn [scan_lines negb omap list_omap]. unfold is_terminator in Hl. rewrite Hl.
    unfold row_of. destruct (String.eqb (Str.strip l) ""); [apply IH|].
    destruct (row_pattern (Str.strip l)); [|apply IH].
    destruct (parse_row_returns (Str.strip l)) as [r ->]. cbn [mbind result_bind].
    destruct r as [it|]; rewrite IH; [|done]. by rewrite <- app_assoc.
Qed.

Lemma scan_lines_cut body term tail items :
  is_terminator term = true →
  scan_lines (body ++ term :: tail) true items = scan_lines body true items.
Proof.
  intros Ht. revert items. induction body as [|l body IH]; intros items.
  - cbn [app scan_lines negb]. unfold is_terminator in Ht. by rewrite Ht.
  - cbn [app scan_lines negb]. destruct (Str.contains "Totale Merce" l); [done|].
    destruct (String.eqb (Str.strip l) ""); [apply IH|].
    destruct (row_pattern (Str.strip l)); [|apply IH].
    destruct (parse_row (Str.strip l)) as [[it|]|e]; cbn [mbind result_bind];
      [apply IH..|done].
Qed.

End Rows.

(** X12.  Without a line that holds both headers of the table,
    [parse_items] returns no record. *)
Theorem no_header_no_records pdftotext pdf_path raw_text :
  pdftotext pdf_path = Ok raw_text →
  Forall (λ l, is_header l = false) (Str.split "010" raw_text) →
  ParseOrders.parse_items pdftotext pdf_path = Ok [].
Proof.
  intros H Hno. unfold ParseOrders.parse_items. rewrite H. cbn [mbind result_bind].
  rewrite <- (app_nil_r (Str.split _ _)). by rewrite scan_lines_seeking.
Qed.

Lemma no_header_no_records_witness :
  ParseOrders.parse_items
    (λ _, Ok ("Ordine 357" +:+ newline +:+ "0001 AB12 PZ 5,00 2,00 0 10,00 22"))
    "ordine.pdf" = Ok [].
Proof.
  apply (no_header_no_records _ "ordine.pdf"
           ("Ordine 357" +:+ newline +:+ "0001 AB12 PZ 5,00 2,00 0 10,00 22")).
  - reflexivity.
  - vm_compute. by repeat constructor.
Defined.

(** X13.  The records come from the lines between the first line with both
    headers and the first later line with the label of the totals (or the
    end of the text), one line at a time and in the order of the lines;
    what stands before the headers or after the label is not read. *)
Theorem table_between_markers pdftotext pdf_path raw_text pre hdr body rest :
  pdftotext pdf_path = Ok raw_text →
  Str.split "010" raw_text = (pre ++ hdr :: body ++ rest)%list →
  Forall (λ l, is_header l = false) pre →
  is_header hdr = true →
  Forall (λ l, is_terminator l = false) body →
  rest = [] ∨ (∃ term tail, rest = term :: tail ∧ is_terminator term = true) →
  ParseOrders.parse_items pdftotext pdf_path = Ok (omap row_of body).
Proof.
  intros H Hsplit Hpre Hhdr Hbody Hrest.
  unfold ParseOrders.parse_items. rewrite H. cbn [mbind result_bind].
  rewrite Hsplit, scan_lines_seeking by done.
  cbn [ParseOrders.scan_lines negb]. unfold is_header in Hhdr. rewrite Hhdr.
  destruct Hrest as [->|(term & tail & -> & Hterm)].
  - rewrite app_nil_r. by rewrite scan_lines_rows.
  - rewrite scan_lines_cut by done. by rewrite scan_lines_rows.
Qed.

Lemma table_between_markers_witness :
  ParseOrders.parse_items (λ _, Ok order_text) "ordine.pdf" =
    Ok (omap row_of
          ["  0001  AB12  vite a testa piana  PZ  5,00  1.234,56  0  6.172,80  22";
           "";
           "  0002  CD34  PZ  3  2,5  0  7,5  22";
           "  0003  EF56  dado  PZ  1  n.d.  0  4  22"]).
Proof.
  apply (table_between_markers (λ _, Ok order_text) "ordine.pdf" order_text
           ["Ordine 357"]
           "Codice  Codice Fornitore  Descrizione  UM  Q.ta  Prezzo  Sc.  Importo  IVA"
           _ ["  Totale Merce  6.180,30"; ""]).
  - reflexivity.
  - vm_compute. reflexivity.
  - vm_compute. by repeat constructor.
  - vm_compute. reflexivity.
  - vm_compute. by repeat constructor.
  - right. eexists _, _. split; [reflexivity|]. vm_compute. reflexivity.
Defined.

(** ** The extracted records *)

Section Extracted.
Import ParseOrders.

Lemma isdigit_not_space c : Str.isdigit c = true → Str.isspace c = false.
Proof. destruct c as [[] [] [] [] [] [] [] []]; vm_compute; congruence. Qed.

Lemma split_ws_aux_cons s b : ∃ w ws, Str.split_ws_aux s b = w :: ws.
Proof.
  revert b. induction s as [|c s IH]; intros b; [by eexists _, _|].
  cbn [Str.split_ws_aux]. destruct (Str.isspace c).
  - destruct b; [apply IH|by eexists _, _].
  - destruct (IH false) as (w & ws & ->). by eexists _, _.
Qed.

Lemma split_ws_first_token s :
  row_pattern s = true →
  ∃ w ws, Str.split_ws s = w :: ws ∧ row_pattern w = true.
Proof.
  destruct s as [|a [|b [|c [|d rest]]]]; try done. cbn [row_pattern].
  intros [[[[Ha Hb]%andb_true_iff Hc]%andb_true_iff Hd]%andb_true_iff Hrest]%andb_true_iff.
  unfold Str.split_ws. cbn [Str.split_ws_aux].
  rewrite !isdigit_not_space by done.
  assert (∃ w ws, Str.split_ws_aux rest false = w :: ws ∧
                  match w with
                  | EmptyString => true
                  | String e _ => negb (Str.isword e)
                  end = true) as (w & ws & -> & Hw).
  { destruct rest as [|e r]; [by eexists _, _|]. cbn [Str.split_ws_aux].
    destruct (Str.isspace e); [by eexists _, _|].
    destruct (split_ws_aux_cons r false) as (w & ws & ->). by eexists _, _. }
  eexists _, _. split; [done|]. cbn [row_pattern]. by rewrite Ha, Hb, Hc, Hd.
Qed.

(** A record and the row it comes from. *)
Lemma row_of_inv line it :
  row_of line = Some it →
  ∃ code sup desc um q p i,
    it = row_record code sup (Str.strip desc) um q p i ∧ row_pattern code = true.
Proof.
  unfold row_of. destruct (String.eqb (Str.strip line) ""); [done|].
  destruct (row_pattern (Str.strip line)) eqn:Hpat; [|done].
  destruct (parse_row (Str.strip line)) as [r|] eqn:Hrow; [|done]. intros ->.
  apply parse_row_inv in Hrow
    as (code & sup & desc & um & tq & tp & td & ti & tv & q & p & i & Hparts & _ & _ & _ & ->).
  apply split_ws_first_token in Hpat as (w & ws & Hw & Hpat).
  assert (w = code) as -> by congruence.
  by exists code, sup, (Str.join " " desc), um, q, p, i.
Qed.

Lemma scan_lines_Forall (P : value → Prop) lines started items items' :
  (∀ line it, row_of line = Some it → P it) →
  Forall P items →
  scan_lines lines started items = Ok items' →
  Forall P items'.
Proof.
  intros Hrow. revert started items.
  induction lines as [|line lines IH]; intros started items Hitems;
    cbn [scan_lines]; [by intros [= <-]|].
  destruct (negb started).
  { destruct (_ && _); by apply IH. }
  destruct (Str.contains "Totale Merce" line); [by intros [= <-]|].
  pose proof (Hrow line) as Hline. unfold row_of in Hline.
  destruct (String.eqb (Str.strip line) ""); [by apply IH|].
  destruct (row_pattern (Str.strip line)); [|by apply IH].
  destruct (parse_row (Str.strip line)) as [[it|]|e]; cbn [mbind result_bind];
    [|by apply IH|done].
  apply IH. apply Forall_app. split; [done|]. repeat constructor. by apply Hline.
Qed.

End Extracted.

(** X14.  Every record that [parse_items] returns holds exactly the seven
    keys codice, codice_fornitore, descrizione, unita_misura, quantita,
    prezzo_unitario and importo, with strings under the first four and
    numbers under the last three, and so no totale_riga; its code begins
    with four digits that no letter, digit or underscore follows, and its
    description is trimmed. *)
Theorem extracted_record_shape pdftotext pdf_path items r :
  ParseOrders.parse_items pdftotext pdf_path = Ok items →
  r ∈ items →
  ∃ code sup desc um q p i d,
    r = row_record code sup desc um q p i ∧
    ParseOrders.row_pattern code = true ∧
    Str.strip desc = desc ∧
    r = VDict d ∧
    dom d = list_to_set ["codice"; "codice_fornitore"; "descrizione"; "unita_misura";
                         "quantita"; "prezzo_unitario"; "importo"] ∧
    d !! "totale_riga" = None.
Proof.
  unfold ParseOrders.parse_items. intros (text & _ & Hscan)%bind_Ok Hr.
  eapply (scan_lines_Forall
            (λ it, ∃ code sup desc um q p i,
               it = row_record code sup (Str.strip desc) um q p i ∧
               ParseOrders.row_pattern code = true)) in Hscan;
    [|apply row_of_inv|constructor].
  rewrite Forall_forall in Hscan.
  destruct (Hscan r Hr) as (code & sup & desc & um & q & p & i & -> & Hpat).
  eexists code, sup, (Str.strip desc), um, q, p, i, _.
  split_and!; [done|done|apply strip_twice|reflexivity| |done].
  rewrite !dom_insert_L, dom_empty_L. set_solver.
Qed.

Lemma extracted_record_shape_witness :
  ∃ code sup desc um q p i d,
    VDict extracted_0001 = row_record code sup desc um q p i ∧
    ParseOrders.row_pattern code = true ∧
    Str.strip desc = desc ∧
    VDict extracted_0001 = VDict d ∧
    dom d = list_to_set ["codice"; "codice_fornitore"; "descrizione"; "unita_misura";
                         "quantita"; "prezzo_unitario"; "importo"] ∧
    d !! "totale_riga" = None.
Proof.
  apply (extracted_record_shape (λ _, Ok order_text) "ordine.pdf"
           [VDict extracted_0001; VDict extracted_0002]).
  - vm_compute. reflexivity.
  - left.
Defined.

(** ** The two components in sequence *)

Lemma compare_orders_total o c t :
  righe_ok o → righe_ok c → ∃ rep, compare_orders o c t = Ok rep.
Proof.
  intros (lo & Hlo & Hfo)%righe_ok_lines (lc & Hlc & Hfc)%righe_ok_lines.
  destruct (index_lines_total lo []) as [idx_o Hio].
  { eapply Forall_impl; [done|]. apply record_ok_key. }
  destruct (index_lines_total lc []) as [idx_c Hic].
  { eapply Forall_impl; [done|]. apply record_ok_key. }
  destruct (scan_original_total idx_o idx_c t [] []) as [[diffs miss] Hs].
  { intros k ol cl Hol Hcl%od_get_elem.
    destruct (index_lines_elem _ _ _ _ _ Hio Hol) as [[]%elem_of_nil|[Hol' _]].
    destruct (index_lines_elem _ _ _ _ _ Hic Hcl) as [[]%elem_of_nil|[Hcl' _]].
    rewrite Forall_forall in Hfo, Hfc.
    apply compare_line_total. intros f Hf. split; apply record_ok_field; auto. }
  unfold compare_orders, build_index. rewrite Hlo, Hlc. cbn [mbind result_bind].
  rewrite Hio, Hic. cbn [mbind result_bind]. rewrite Hs. by eexists.
Qed.

Lemma row_record_ok code sup desc um q p i :
  record_ok (row_record code sup desc um q p i).
Proof.
  eexists. split; [reflexivity|]. split; [right; left; by eexists|].
  intros f Hf z.
  repeat (apply elem_of_cons in Hf as [->|Hf]); [..|by apply elem_of_nil in Hf];
    by vm_compute.
Qed.

Lemma extracted_rows pdftotext pdf_path items :
  ParseOrders.parse_items pdftotext pdf_path = Ok items →
  Forall (λ r, ∃ code sup desc um q p i, r = row_record code sup desc um q p i) items.
Proof.
  unfold ParseOrders.parse_items. intros (text & _ & Hscan)%bind_Ok.
  eapply scan_lines_Forall; [|constructor|done].
  intros line it (code & sup & desc & um & q & p & i & -> & _)%row_of_inv.
  by eexists _, _, _, _, _, _, _.
Qed.

Lemma parse_items_returns pdftotext pdf_path raw_text :
  pdftotext pdf_path = Ok raw_text →
  ∃ items, ParseOrders.parse_items pdftotext pdf_path = Ok items.
Proof.
  intros H. unfold ParseOrders.parse_items. rewrite H. cbn [mbind result_bind].
  destruct (scan_lines_numeric (Str.split "010" raw_text) false []) as (items & -> & _);
    [constructor|by eexists].
Qed.

Lemma parse_items_raises pdftotext pdf_path e :
  pdftotext pdf_path = Raise e →
  ParseOrders.parse_items pdftotext pdf_path = Raise e.
Proof. intros H. unfold ParseOrders.parse_items. by rewrite H. Qed.

Lemma lines_of_righe (items : list value) :
  py_iter (lines_of {[ "righe" := VList items ]}) = Ok items.
Proof.
  unfold lines_of. rewrite lookup_singleton_eq. by destruct items.
Qed.

Lemma extracted_rows_ok (items : list value) :
  Forall (λ r, ∃ code sup desc um q p i, r = row_record code sup desc um q p i) items →
  righe_ok {[ "righe" := VList items ]}.
Proof.
  intros H. unfold righe_ok. rewrite lookup_singleton_eq. right. exists items.
  split; [done|]. eapply Forall_impl; [done|].
  intros r (code & sup & desc & um & q & p & i & ->). apply row_record_ok.
Qed.

(** A discrepancy record of two extracted rows holds neither totals nor a
    note. *)
Lemma compare_line_of_rows k code sup desc um q p i cl t d :
  compare_line k (row_record code sup desc um q p i) cl t = Ok d →
  od_get "totale_riga" d = None ∧ od_get "nota" d = None.
Proof.
  intros (oq & cq & op & cp & ot & ct & _ & _ & _ & _ & Hot & _ & ->)%compare_line_full.
  assert (ot = None) as -> by (vm_compute in Hot; congruence).
  cbn [differ]. rewrite andb_false_r.
  by destruct (differ oq cq), (differ op cp).
Qed.

Lemma compare_files_of_texts pdftotext order_path confirm_path order_text confirm_text :
  pdftotext order_path = Ok order_text →
  pdftotext confirm_path = Ok confirm_text →
  ∃ rep,
    Api.compare_files pdftotext (Some order_path) (Some confirm_path) =
      (Api.Comparison rep, 200) ∧
    ∀ d, d ∈ differenze rep →
         od_get "totale_riga" d = None ∧ od_get "nota" d = None.
Proof.
  intros (oi & Hoi)%parse_items_returns (ci & Hci)%parse_items_returns.
  pose proof (extracted_rows _ _ _ Hoi) as Hro.
  pose proof (extracted_rows _ _ _ Hci) as Hrc.
  destruct (compare_orders_total {[ "righe" := VList oi ]} {[ "righe" := VList ci ]}
              default_tolerance) as [rep Hrep]; [by apply extracted_rows_ok..|].
  exists rep. split.
  - unfold Api.compare_files. rewrite Hoi, Hci. cbn [mbind result_bind]. by rewrite Hrep.
  - intros d Hd.
    destruct (compare_orders_inv _ _ _ _ Hrep)
      as (lo & lc & io & ic & _ & _ & _ & _ & Ho & Hc & _).
    apply (report_elems _ _ _ _ _ _ Hrep Ho Hc) in Hd
      as (k & ol & cl & Hin & _ & Hcmp & _).
    destruct (build_index_elem _ _ _ _ Ho Hin) as (_ & _ & lines & Hlines & Hol).
    rewrite lines_of_righe in Hlines. injection Hlines as <-.
    rewrite Forall_forall in Hro.
    destruct (Hro ol Hol) as (code & sup & desc & um & q & p & i & ->).
    by eapply compare_line_of_rows.
Qed.


(** X15.  When the conversion of both uploads succeeds, [compare_files]
    answers with status 200 and a report: the comparison never fails on
    extracted records.  No discrepancy record of that report holds a pair of
    totals or a note, since the extractor writes the total under importo
    and the comparator reads it under totale_riga. *)
Theorem extracted_rows_compare pdftotext order_path confirm_path order_text confirm_text :
  pdftotext order_path = Ok order_text →
  pdftotext confirm_path = Ok confirm_text →
  ∃ rep,
    Api.compare_files pdftotext (Some order_path) (Some confirm_path) =
      (Api.Comparison rep, 200) ∧
    ∀ d, d ∈ differenze rep →
         od_get "totale_riga" d = None ∧ od_get "nota" d = None.
Proof. apply compare_files_of_texts. Qed.

Lemma extracted_rows_compare_witness :
  ∃ rep,
    Api.compare_files (λ _, Ok order_text) (Some "order.pdf") (Some "confirm.pdf") =
      (Api.Comparison rep, 200) ∧
    ∀ d, d ∈ differenze rep →
         od_get "totale_riga" d = None ∧ od_get "nota" d = None.
Proof.
  apply (extracted_rows_compare (λ _, Ok order_text) "order.pdf" "confirm.pdf"
           order_text order_text); reflexivity.
Defined.

(** X16.  [compare_files] answers 400 exactly when an upload is missing,
    and 500 exactly when both are there and the conversion of one of them
    raises: the body then holds the exception of the first conversion that
    failed.  In every other case it answers 200. *)
Theorem compare_files_status pdftotext order_file confirm_file :
  ((Api.compare_files pdftotext order_file confirm_file).2 = 400 ↔
   order_file = None ∨ confirm_file = None) ∧
  ((Api.compare_files pdftotext order_file confirm_file).2 = 500 ↔
   ∃ order_path confirm_path exc,
     order_file = Some order_path ∧ confirm_file = Some confirm_path ∧
     (pdftotext order_path = Raise exc ∨
      (∃ text, pdftotext order_path = Ok text) ∧ pdftotext confirm_path = Raise exc) ∧
     (Api.compare_files pdftotext order_file confirm_file).1 = Api.ErrorOf exc) ∧
  ((Api.compare_files pdftotext order_file confirm_file).2 = 200 ∨
   (Api.compare_files pdftotext order_file confirm_file).2 = 400 ∨
   (Api.compare_files pdftotext order_file confirm_file).2 = 500).
Proof.
  destruct order_file as [op|], confirm_file as [cp|]; cbn [Api.compare_files snd fst];
    try (split_and!;
         [split; [auto|done]
         |split; [done|by intros (? & ? & ? & ? & ? & _)]
         |auto]).
  destruct (pdftotext op) as [a|e] eqn:Ha.
  - destruct (pdftotext cp) as [b|e] eqn:Hb.
    + destruct (compare_files_of_texts pdftotext op cp a b Ha Hb) as (rep & Hrep & _).
      unfold Api.compare_files in Hrep. destruct (_ ≫= _) as [r|] eqn:E; [|done].
      cbn [snd fst]. split_and!; [split; [done|by intros [|]]| |auto].
      split; [done|]. intros (op' & cp' & exc & [= <-] & [= <-] & [?|[_ ?]] & _); congruence.
    + rewrite (parse_items_raises _ _ _ Hb).
      destruct (parse_items_returns pdftotext op a Ha) as [oi ->].
      cbn [mbind result_bind snd fst].
      split_and!; [split; [done|by intros [|]]| |auto].
      split; [intros _|done]. exists op, cp, e. split_and!; eauto.
  - rewrite (parse_items_raises _ _ _ Ha). cbn [mbind result_bind snd fst].
    split_and!; [split; [done|by intros [|]]| |auto].
    split; [intros _|done]. exists op, cp, e. split_and!; eauto.
Qed.

(** ** The codes of a report as sets *)

Lemma has_code_true k line : has_code k line = true ↔ line_key line = Ok (Some k).
Proof.
  unfold has_code. destruct (line_key line) as [[k'|]|]; try done.
  destruct (String.eqb_spec k k') as [->|]; [done|]. split; [done|congruence].
Qed.

Lemma last_with_code_is_Some k lines :
  is_Some (last_with_code k lines) ↔ code_among k lines.
Proof.
  unfold code_among. induction lines as [|x lines IH]; simpl.
  - split; [by intros []|]. by intros (v & []%elem_of_nil & _).
  - destruct (last_with_code k lines) as [later|].
    + split; [intros _|done].
      destruct (proj1 IH) as (v & Hv & Hk); [done|]. exists v. split; [by right|done].
    + destruct (has_code k x) eqn:E.
      * split; [intros _|done]. exists x. split; [left|]. by apply has_code_true.
      * split; [by intros []|]. intros (v & [->|Hv]%elem_of_cons & Hk).
        -- apply has_code_true in Hk. congruence.
        -- apply IH. by exists v.
Qed.

(** X17.  As sets of codes, the lines missing in the confirmation are the
    codes of the original that the confirmation does not have, the extra
    lines are the codes of the confirmation that the original does not have,
    and every discrepancy record is for a code that both have. *)
Theorem codes_of_report o c t rep lo lc :
  compare_orders o c t = Ok rep →
  py_iter (lines_of o) = Ok lo →
  py_iter (lines_of c) = Ok lc →
  (∀ k, code_among k (righe_mancanti_nella_conferma rep) ↔
        code_among k lo ∧ ¬ code_among k lc) ∧
  (∀ k, code_among k (righe_extra_nella_conferma rep) ↔
        code_among k lc ∧ ¬ code_among k lo) ∧
  (∀ k, code_among_records k (differenze rep) →
        code_among k lo ∧ code_among k lc).
Proof.
  intros H Hlo Hlc.
  destruct (compare_orders_inv _ _ _ _ H)
    as (lo' & lc' & io & ic & _ & _ & _ & _ & Ho & Hc & _).
  pose proof (report_elems _ _ _ _ _ _ H Ho Hc) as (Hm & He & Hd).
  assert (∀ k, od_get k io = last_with_code k lo) as Hgo
    by (intros k; by eapply build_index_get).
  assert (∀ k, od_get k ic = last_with_code k lc) as Hgc
    by (intros k; by eapply build_index_get).
  assert (∀ k, code_among k lo ↔ is_Some (od_get k io)) as Hao
    by (intros k; by rewrite Hgo, last_with_code_is_Some).
  assert (∀ k, code_among k lc ↔ is_Some (od_get k ic)) as Hac
    by (intros k; by rewrite Hgc, last_with_code_is_Some).
  split_and!.
  - intros k. rewrite Hao, Hac. split.
    + intros Hk. eapply missing_code in Hk as [? Hn]; [|done..].
      rewrite Hn. split; [done|]. by intros [].
    + intros [[v Hv] Hn]. exists v. split.
      * apply Hm. exists k. split; [by apply od_get_elem|].
        by destruct (od_get k ic); [destruct Hn|].
      * apply od_get_elem in Hv. by destruct (build_index_elem _ _ _ _ Ho Hv) as [? _].
  - intros k. rewrite Hao, Hac. split.
    + intros Hk. eapply extra_code in Hk as [? Hn]; [|done..].
      rewrite Hn. split; [done|]. by intros [].
    + intros [[v Hv] Hn]. exists v. split.
      * apply He. exists k. split; [by apply od_get_elem|].
        by destruct (od_get k io); [destruct Hn|].
      * apply od_get_elem in Hv. by destruct (build_index_elem _ _ _ _ Hc Hv) as [? _].
  - intros k Hk. rewrite Hao, Hac. by eapply record_code.
Qed.

Lemma codes_of_report_witness :
  code_among "0002" [VDict row_0002] ↔
  code_among "0002" [VDict (row_0001 2 10 "importo"); VDict row_0002] ∧
  ¬ code_among "0002" [VDict (row_0001 2.5 12.5 "importo"); VDict row_0003].
Proof.
  refine (proj1 (codes_of_report (e2e_original "importo") (e2e_confirmation "importo")
    default_tolerance
    {| differenze :=
         [[("codice", VStr "0001");
           ("prezzo_unitario", VTuple [VFloat 2; VFloat 2.5])]];
       righe_mancanti_nella_conferma := [VDict row_0002];
       righe_extra_nella_conferma := [VDict row_0003] |}
    [VDict (row_0001 2 10 "importo"); VDict row_0002]
    [VDict (row_0001 2.5 12.5 "importo"); VDict row_0003] _ _ _) "0002").
  - vm_compute. reflexivity.
  - vm_compute. reflexivity.
  - vm_compute. reflexivity.
Defined.

(** ** A document compared with itself, in general *)

Lemma differ_same_nan (a : option float) : differ a a = true → a = Some nan.
Proof.
  intros H. destruct a as [x|]; [|done]. simpl in H. apply negb_true_iff in H.
  rewrite FloatAxioms.eqb_spec in H. unfold SFeqb in H.
  destruct (Prim2SF x) as [s|s| |s m e] eqn:Ex.
  1, 2, 4: by rewrite SFcompare_refl in H.
  f_equal. by rewrite <- (SF2Prim_Prim2SF x), Ex.
Qed.

(** X18.  A document compared with itself has no line missing and no extra
    line, whatever its records hold; and a pair in one of its discrepancy
    records can only be the pair of NaN with NaN. *)
Theorem self_comparison A t rep :
  compare_orders A A t = Ok rep →
  righe_mancanti_nella_conferma rep = [] ∧
  righe_extra_nella_conferma rep = [] ∧
  ∀ d f v, d ∈ differenze rep → f ∈ numeric_fields → od_get f d = Some v →
           v = VTuple [VFloat nan; VFloat nan].
Proof.
  intros H.
  destruct (compare_orders_inv _ _ _ _ H)
    as (lo & lc & io & ic & _ & _ & _ & _ & Ho & Hc & Hs & He).
  assert (ic = io) as -> by congruence.
  assert (∀ k v, (k, v) ∈ io → od_get k io = Some v) as Hget.
  { intros k v Hin. by destruct (build_index_elem _ _ _ _ Ho Hin) as (_ & ? & _). }
  split_and!.
  - rewrite (scan_original_missing _ _ _ _ _ _ _ Hs). by apply scan_confirmation_self.
  - rewrite He. by apply scan_confirmation_self.
  - intros d f v Hd Hf Hv.
    apply (report_elems _ _ _ _ _ _ H Ho Ho) in Hd as (k & ol & cl & Hin & Hcl & Hcmp & _).
    rewrite (Hget _ _ Hin) in Hcl. injection Hcl as <-.
    apply compare_line_full in Hcmp
      as (oq & cq & op & cp & ot & ct & Hoq & Hcq & Hop & Hcp & Hot & Hct & ->).
    assert (cq = oq) as -> by congruence. assert (cp = op) as -> by congruence.
    assert (ct = ot) as -> by congruence.
    set (note := match ot, ot with Some x, Some y => _ | _, _ => false end) in *.
    clearbody note.
    repeat (apply elem_of_cons in Hf as [->|Hf]); [..|by apply elem_of_nil in Hf];
      destruct (differ oq oq) eqn:Eq, (differ op op) eqn:Ep, (differ ot ot) eqn:Et, note;
      cbn in Hv; try done; injection Hv as <-;
      repeat match goal with
        | E : differ ?a ?a = true |- _ => apply differ_same_nan in E; subst
        end; done.
Qed.

Lemma self_comparison_witness :
  ([] : list value) = [] ∧ ([] : list value) = [] ∧
  ∀ d f v, d ∈ [[("codice", VStr "0001"); ("quantita", VTuple [VFloat nan; VFloat nan])]] →
           f ∈ numeric_fields → od_get f d = Some v →
           v = VTuple [VFloat nan; VFloat nan].
Proof.
  apply (self_comparison (document [nan_row]) default_tolerance
           {| differenze :=
                [[("codice", VStr "0001");
                  ("quantita", VTuple [VFloat nan; VFloat nan])]];
              righe_mancanti_nella_conferma := [];
              righe_extra_nella_conferma := [] |}).
  vm_compute. reflexivity.
Defined.

(** ** The order of a report *)

Lemma elem_of_first_occurrences k ks : k ∈ first_occurrences ks ↔ k ∈ ks.
Proof.
  induction ks as [|x ks IH]; [done|]. cbn [first_occurrences].
  rewrite !elem_of_cons, list_elem_of_filter, IH.
  split; [intros [?|[? ?]]; auto|].
  intros [?|?]; [auto|]. destruct (decide (k = x)); auto.
Qed.

Lemma filter_absent_keys (d other : odict value) :
  (filter (λ kv, od_get kv.1 other = None) d).*1 =
    filter (λ k, od_get k other = None) d.*1.
Proof.
  induction d as [|[k v] d IH]; [done|].
  rewrite fmap_cons, !filter_cons. simpl.
  destruct (decide (od_get k other = None)); [rewrite fmap_cons|]; by rewrite IH.
Qed.

Lemma build_index_keys doc lines idx :
  py_iter (lines_of doc) = Ok lines → build_index doc = Ok idx →
  idx.*1 = first_occurrences (line_codes lines).
Proof.
  intros Hl (lines' & Hl' & Hi)%bind_Ok. assert (lines' = lines) as -> by congruence.
  pose proof (index_lines_keys _ _ _ Hi) as Hkeys.
  by rewrite fmap_nil, app_nil_l, filter_absent_nil in Hkeys.
Qed.

Lemma absent_codes_in_order doc lines idx other others oidx :
  py_iter (lines_of doc) = Ok lines → build_index doc = Ok idx →
  py_iter (lines_of other) = Ok others → build_index other = Ok oidx →
  line_codes (scan_confirmation idx oidx []) =
    filter (λ k, k ∉ line_codes others) (first_occurrences (line_codes lines)).
Proof.
  intros Hl Hidx Hol Hoidx. rewrite scan_confirmation_filter, app_nil_l.
  assert (Forall (λ kv, line_key kv.2 = Ok (Some kv.1))
            (filter (λ kv, od_get kv.1 oidx = None) idx)) as Hall.
  { apply Forall_forall. intros [k v] [_ Hin]%list_elem_of_filter.
    by destruct (build_index_elem _ _ _ _ Hidx Hin) as [? _]. }
  rewrite (line_codes_of_indexed _ Hall).
  rewrite filter_absent_keys.
  rewrite (build_index_keys _ _ _ Hl Hidx). apply list_filter_iff. intros k.
  by rewrite od_get_None, (build_index_keys _ _ _ Hol Hoidx), elem_of_first_occurrences.
Qed.

(** X19.  The lists of a report follow the order in which the codes first
    occur: the codes of the lines missing in the confirmation are the codes
    of the original in that order, without those that the confirmation has;
    likewise for the extra lines; and the codes of the discrepancy records
    come in the order of the original. *)
Theorem report_in_order_of_first_occurrence o c t rep lo lc :
  compare_orders o c t = Ok rep →
  py_iter (lines_of o) = Ok lo →
  py_iter (lines_of c) = Ok lc →
  line_codes (righe_mancanti_nella_conferma rep) =
    filter (λ k, k ∉ line_codes lc) (first_occurrences (line_codes lo)) ∧
  line_codes (righe_extra_nella_conferma rep) =
    filter (λ k, k ∉ line_codes lo) (first_occurrences (line_codes lc)) ∧
  sublist (record_codes (differenze rep)) (first_occurrences (line_codes lo)).
Proof.
  intros H Hlo Hlc.
  destruct (compare_orders_inv _ _ _ _ H)
    as (lo' & lc' & io & ic & _ & _ & _ & _ & Ho & Hc & Hs & He).
  split_and!.
  - rewrite (scan_original_missing _ _ _ _ _ _ _ Hs).
    by eapply absent_codes_in_order.
  - rewrite He. by eapply absent_codes_in_order.
  - destruct (scan_original_codes _ _ _ _ _ _ _ Hs) as (ks & Hks & Hsub & _).
    simpl in Hks. by rewrite Hks, <- (build_index_keys _ _ _ Hlo Ho).
Qed.

Lemma report_in_order_of_first_occurrence_witness :
  line_codes [VDict second_0007; VDict row_0002] =
    filter (λ k, k ∉ line_codes [VDict row_0003])
      (first_occurrences
         (line_codes [VDict first_0007; VDict row_0002; VDict second_0007])) ∧
  line_codes [VDict row_0003] =
    filter (λ k, k ∉ line_codes [VDict first_0007; VDict row_0002; VDict second_0007])
      (first_occurrences (line_codes [VDict row_0003])) ∧
  sublist (record_codes [])
    (first_occurrences
       (line_codes [VDict first_0007; VDict row_0002; VDict second_0007])).
Proof.
  apply (report_in_order_of_first_occurrence
           (document [first_0007; row_0002; second_0007]) (document [row_0003])
           default_tolerance
           {| differenze := [];
              righe_mancanti_nella_conferma := [VDict second_0007; VDict row_0002];
              righe_extra_nella_conferma := [VDict row_0003] |}).
  - vm_compute. reflexivity.
  - vm_compute. reflexivity.
  - vm_compute. reflexivity.
Defined.

(** ** The pairs of a discrepancy record *)

(** X20.  For each of the three fields, the comparison of two matched lines
    records a pair exactly when both values are numbers that are not equal:
    the pair of the number of the original and the number of the
    confirmation, in this order. *)
Theorem field_pair_exactly_when k o c t d f :
  compare_line k o c t = Ok d →
  f ∈ numeric_fields →
  ∃ a b,
    py_get o f ≫= _parse_number = Ok a ∧
    py_get c f ≫= _parse_number = Ok b ∧
    od_mem f d = differ a b ∧
    ∀ v, od_get f d = Some v ↔
         ∃ x y, a = Some x ∧ b = Some y ∧ PrimFloat.eqb x y = false ∧
                v = VTuple [VFloat x; VFloat y].
Proof.
  intros (oq & cq & op & cp & ot & ct & Hoq & Hcq & Hop & Hcp & Hot & Hct & ->)%compare_line_full Hf.
  set (note := match ot, ct with Some x, Some y => _ | _, _ => false end) in *.
  clearbody note.
  assert (∀ a b v, differ a b = true →
            (Some (VTuple [opt_value a; opt_value b]) = Some v ↔
             ∃ x y, a = Some x ∧ b = Some y ∧ PrimFloat.eqb x y = false ∧
                    v = VTuple [VFloat x; VFloat y])) as Hpair.
  { intros a b v (x & y & -> & -> & Hxy)%differ_true. split.
    - intros [= <-]. by exists x, y.
    - by intros (x' & y' & [= <-] & [= <-] & _ & ->). }
  assert (∀ a b v, differ a b = false →
            ((None : option value) = Some v ↔
             ∃ x y, a = Some x ∧ b = Some y ∧ PrimFloat.eqb x y = false ∧
                    v = VTuple [VFloat x; VFloat y])) as Hnone.
  { intros a b v Hab. split; [done|].
    intros (x & y & -> & -> & Hxy & _). simpl in Hab. by rewrite Hxy in Hab. }
  repeat (apply elem_of_cons in Hf as [->|Hf]); [..|by apply elem_of_nil in Hf].
  - exists oq, cq. split_and!; [done..| |];
      destruct (differ oq cq) eqn:Eq, (differ op cp) eqn:Ep, (differ ot ct) eqn:Et, note;
      cbn; try done; intros v; by (apply Hpair || apply Hnone).
  - exists op, cp. split_and!; [done..| |];
      destruct (differ oq cq) eqn:Eq, (differ op cp) eqn:Ep, (differ ot ct) eqn:Et, note;
      cbn; try done; intros v; by (apply Hpair || apply Hnone).
  - exists ot, ct. split_and!; [done..| |];
      destruct (differ oq cq) eqn:Eq, (differ op cp) eqn:Ep, (differ ot ct) eqn:Et, note;
      cbn; try done; intros v; by (apply Hpair || apply Hnone).
Qed.

Lemma field_pair_exactly_when_witness :
  ∃ a b,
    py_get (VDict (row_0001 2 10 "totale_riga")) "prezzo_unitario" ≫= _parse_number
      = Ok a ∧
    py_get (VDict (row_0001 2.5 12.5 "totale_riga")) "prezzo_unitario" ≫= _parse_number
      = Ok b ∧
    od_mem "prezzo_unitario"
      [("codice", VStr "0001");
       ("prezzo_unitario", VTuple [VFloat 2; VFloat 2.5]);
       ("totale_riga", VTuple [VFloat 10; VFloat 12.5])] = differ a b ∧
    ∀ v, od_get "prezzo_unitario"
           [("codice", VStr "0001");
            ("prezzo_unitario", VTuple [VFloat 2; VFloat 2.5]);
            ("totale_riga", VTuple [VFloat 10; VFloat 12.5])] = Some v ↔
         ∃ x y, a = Some x ∧ b = Some y ∧ PrimFloat.eqb x y = false ∧
                v = VTuple [VFloat x; VFloat y].
Proof.
  apply (field_pair_exactly_when "0001" (VDict (row_0001 2 10 "totale_riga"))
           (VDict (row_0001 2.5 12.5 "totale_riga")) default_tolerance).
  - vm_compute. reflexivity.
  - right. left.
Defined.
